(** * ArmatureProxy: mode-bracketed synchronisation of an Armature datablock

    Shallow embedding of [mixer/blender_data/armature_proxy.py].

    The Python code runs against a mutable host document (Blender's [bpy]),
    a class-level dictionary ([ArmatureProxy._edit_bones_map]) and a handful
    of collaborators that live in other modules ([DatablockProxy],
    [write_attribute], the visit state).  The embedding threads the host
    document and the dictionary through a state monad that also carries
    Python exceptions and a trace of the effects the module itself performs
    (mode switches, selection changes, dictionary accesses, log records,
    calls to collaborators). *)

From stdpp Require Import base option list strings gmap fin_maps.
From Stdlib Require Import ZArith.

Set Default Proof Using "Type".

(** ** Values *)

(** Object interaction modes.  [EDIT] is the only mode in which
    [edit_bones] can be read or written. *)
Inductive Mode := OBJECT | EDIT | POSE | SCULPT.

Global Instance Mode_eq_dec : EqDecision Mode.
Proof. solve_decision. Defined.

(** The values of [bpy.context.mode].  They are not the values of
    [Object.mode]: in edit mode the context reports the kind of the edited
    data (["EDIT_ARMATURE"], ["EDIT_MESH"], ...), where the object reports
    ["EDIT"].  [CONTEXT_EDIT_MESH] stands for the edit modes of every kind
    other than the armature. *)
Inductive ContextMode :=
| CONTEXT_OBJECT
| CONTEXT_EDIT_ARMATURE
| CONTEXT_EDIT_MESH
| CONTEXT_POSE
| CONTEXT_SCULPT.

Global Instance ContextMode_eq_dec : EqDecision ContextMode.
Proof. solve_decision. Defined.

(** The [mode] argument of [bpy.ops.object.mode_set] takes the names of
    [Object.mode]: a name of [bpy.context.mode] is accepted when it is one of
    them (["OBJECT"], ["POSE"], ["SCULPT"]) and refused otherwise. *)
Definition operator_mode (name : ContextMode) : option Mode :=
  match name with
  | CONTEXT_OBJECT => Some OBJECT
  | CONTEXT_POSE => Some POSE
  | CONTEXT_SCULPT => Some SCULPT
  | CONTEXT_EDIT_ARMATURE | CONTEXT_EDIT_MESH => None
  end.

(** The Python type of a datablock handle, as far as [isinstance] against
    [T.Armature] is concerned. *)
Inductive Kind := Armature | OtherKind.

Global Instance Kind_eq_dec : EqDecision Kind.
Proof. solve_decision. Defined.

(** A bone record; the hierarchy is carried by the parent's name. *)
Record Bone := mkBone { bone_name : string; bone_parent : option string }.

Global Instance Bone_eq_dec : EqDecision Bone.
Proof. solve_decision. Defined.

(** Attribute values held by a proxy. *)
Inductive Value :=
| VInt (z : Z)
| VStr (s : string)
| VBones (bs : list Bone).

Global Instance Value_eq_dec : EqDecision Value.
Proof. solve_decision. Defined.

(** Python exceptions.  [KeyboardInterrupt] derives from [BaseException]
    only, so [except Exception] does not catch it. *)
Inductive Exn :=
| TypeError
| AttributeError
| KeyError
| RuntimeError
| AssertionError
| ReferenceError
| OtherException (msg : string)
| KeyboardInterrupt.

Global Instance Exn_eq_dec : EqDecision Exn.
Proof. solve_decision. Defined.

Definition is_Exception (e : Exn) : bool :=
  match e with
  | KeyboardInterrupt => false
  | _ => true
  end.

(** [len(v)] *)
Definition py_len (v : Value) : Exn + nat :=
  match v with
  | VInt _ => inl TypeError
  | VStr s => inr (String.length s)
  | VBones bs => inr (length bs)
  end.

(** ** The host document *)

(** A datablock handle: its Python type and its [mixer_uuid]. *)
Record Datablock := mkDatablock { db_kind : Kind; db_mixer_uuid : string }.

Global Instance Datablock_eq_dec : EqDecision Datablock.
Proof. solve_decision. Defined.

(** What a datablock holds in the document. *)
Record Content := mkContent {
  attrs : list (string * Value);
  live_edit_bones : list Bone
}.

(** An entry of [bpy.data.objects]. *)
Record Object := mkObject {
  ob_mixer_uuid : string;
  ob_data : option Datablock;
  ob_mode : Mode
}.

Definition with_mode (m : Mode) (ob : Object) : Object :=
  mkObject (ob_mixer_uuid ob) (ob_data ob) m.

(** A window with the types of the areas of its screen. *)
Record Window := mkWindow { screen_areas : list string }.

Record World := mkWorld {
  objects : list Object;            (* bpy.data.objects, in iteration order *)
  active : option nat;              (* bpy.context.view_layer.objects.active *)
  windows : list Window;            (* bpy.context.window_manager.windows *)
  doc : gmap string Content;        (* datablock contents, by mixer_uuid *)
  _edit_bones_map : gmap string Value  (* ArmatureProxy._edit_bones_map *)
}.

Definition set_objects (obs : list Object) (w : World) : World :=
  mkWorld obs (active w) (windows w) (doc w) (_edit_bones_map w).
Definition set_active (a : option nat) (w : World) : World :=
  mkWorld (objects w) a (windows w) (doc w) (_edit_bones_map w).
Definition set_doc (d : gmap string Content) (w : World) : World :=
  mkWorld (objects w) (active w) (windows w) d (_edit_bones_map w).
Definition set_edit_bones_map (c : gmap string Value) (w : World) : World :=
  mkWorld (objects w) (active w) (windows w) (doc w) c.

(** The dictionary returned by [bpy.context.copy()], restricted to the
    entries that [override_context] and [load] touch. *)
Record Ctx := mkCtx {
  ctx_window : option nat;
  ctx_screen : option nat;
  ctx_area : option string;
  ctx_active_object : option nat;
  ctx_mode : ContextMode
}.

(** The proxy: [self._data], an insertion-ordered dictionary. *)
Record Proxy := mkProxy { _data : list (string * Value) }.

Global Instance Proxy_eq_dec : EqDecision Proxy.
Proof. solve_decision. Defined.

(** A key of [apply]: [Union[int, str]]. *)
Inductive Key := KInt (i : Z) | KStr (s : string).

Global Instance Key_eq_dec : EqDecision Key.
Proof. solve_decision. Defined.

(** Modelled from the spec: the [Delta] type of [bpy_data_proxy] is not in
    this module; the specification describes it as an immutable description
    of a change to one attribute (add / remove / update). *)
Inductive DeltaOp := DeltaAddition (v : Value) | DeltaDeletion | DeltaUpdate (v : Value).
Record Delta := mkDelta { delta_attr : string; delta_op : DeltaOp }.

Global Instance DeltaOp_eq_dec : EqDecision DeltaOp.
Proof. solve_decision. Defined.
Global Instance Delta_eq_dec : EqDecision Delta.
Proof. solve_decision. Defined.

(** ** Effects *)

Inductive Level := WARNING | ERROR.

Global Instance Level_eq_dec : EqDecision Level.
Proof. solve_decision. Defined.

(** Calls to collaborators defined outside this module. *)
Inductive Call :=
| CPreSave (d : Datablock)
| CEnterDatablock (d : Datablock)
| CExitDatablock (d : Datablock)
| CWriteAttribute (d : option Datablock) (k : string) (v : Value)
| CCustomPropertiesSave (d : Datablock)
| CBaseLoad (d : Datablock)
| CBaseDiff (d : Datablock) (k : string)
| CBaseApply (d : Datablock) (k : Key) (delta : Delta) (to_blender : bool)
| CResolve (uuid : string) (ob : nat).

Global Instance Call_eq_dec : EqDecision Call.
Proof. solve_decision. Defined.

(** What the module does, in program order. *)
Inductive Event :=
| EvLog (lvl : Level) (msg : string)
| EvSetActive (ob : option nat)
| EvModeSet (target : option nat) (m : Mode)
| EvCacheGet (k : string)
| EvCacheSet (k : string) (v : Value)
| EvCacheDel (k : string)
| EvCall (c : Call).

Global Instance Event_eq_dec : EqDecision Event.
Proof. solve_decision. Defined.

Inductive Outcome (A : Type) :=
| Ok (a : A)
| Raise (e : Exn).
Arguments Ok {A} a.
Arguments Raise {A} e.

(** A computation: from a world to the trace of what was done, the world
    it leaves behind (also when it raises) and its outcome. *)
Definition M (A : Type) : Type := World -> list Event * World * Outcome A.

Definition ret {A} (a : A) : M A := fun w => ([], w, Ok a).
Definition raise {A} (e : Exn) : M A := fun w => ([], w, Raise e).
Definition bind {A B} (m : M A) (f : A -> M B) : M B :=
  fun w =>
    match m w with
    | (t1, w1, Ok a) =>
        match f a w1 with
        | (t2, w2, o) => (t1 ++ t2, w2, o)
        end
    | (t1, w1, Raise e) => (t1, w1, Raise e)
    end.

Notation "'do' x <- m ; k" := (bind m (fun x => k))
  (at level 10, x name, m at level 100, k at level 200).
Notation "'do_' m ; k" := (bind m (fun _ => k))
  (at level 10, m at level 100, k at level 200).

Definition emit (e : Event) : M unit := fun w => ([e], w, Ok tt).
Definition get_world : M World := fun w => ([], w, Ok w).
Definition modify (f : World -> World) : M unit := fun w => ([], f w, Ok tt).

(** A collaborator is a function on worlds; calling it is recorded. *)
Definition External (A : Type) : Type := World -> World * Outcome A.
Definition call {A} (c : Call) (f : External A) : M A :=
  fun w => match f w with (w', o) => ([EvCall c], w', o) end.

(** [try: m  except Exception: pass] *)
Definition try_except_pass (m : M unit) : M unit :=
  fun w =>
    match m w with
    | (t, w', Raise e) => if is_Exception e then (t, w', Ok tt) else (t, w', Raise e)
    | r => r
    end.

(** [with cm: body] for a context manager that does not swallow
    exceptions: [exit] runs on every way out of [body]. *)
Definition with_cm {A} (enter : M unit) (exit : M unit) (body : M A) : M A :=
  do_ enter;
  fun w =>
    match body w with
    | (t1, w1, o) =>
        match exit w1 with
        | (t2, w2, Ok _) => (t1 ++ t2, w2, o)
        | (t2, w2, Raise e) => (t1 ++ t2, w2, Raise e)
        end
    end.

(** ** Host operations ([bpy]) *)

(** The name under which [bpy.context.mode] reports the mode of an object. *)
Definition context_mode_of (ob : Object) : ContextMode :=
  match ob_mode ob with
  | OBJECT => CONTEXT_OBJECT
  | POSE => CONTEXT_POSE
  | SCULPT => CONTEXT_SCULPT
  | EDIT =>
      match ob_data ob with
      | Some d => if bool_decide (db_kind d = Armature) then CONTEXT_EDIT_ARMATURE
                  else CONTEXT_EDIT_MESH
      | None => CONTEXT_EDIT_MESH
      end
  end.

(** [bpy.context.mode]: the mode of the active object under its context
    name, ["OBJECT"] when nothing is active. *)
Definition context_mode (w : World) : ContextMode :=
  match active w with
  | Some a => match objects w !! a with
              | Some ob => context_mode_of ob
              | None => CONTEXT_OBJECT
              end
  | None => CONTEXT_OBJECT
  end.

(** Modelled from the spec: the host mode API is assumed, not specified.
    [bpy.ops.object.mode_set] switches the mode of the object the operator
    runs on (the active object, or the [active_object] of an override
    context) and fails when there is no such object. *)
Definition mode_set_on (target : option nat) (m : Mode) : M unit :=
  do_ emit (EvModeSet target m);
  do w <- get_world;
  match target with
  | Some i =>
      match objects w !! i with
      | Some ob => modify (set_objects (<[i := with_mode m ob]> (objects w)))
      | None => raise RuntimeError
      end
  | None => raise RuntimeError
  end.

(** [bpy.ops.object.mode_set(ctx, mode=name)] for a name read from
    [bpy.context.mode]: a name the operator does not know is refused with
    [TypeError] before the operator runs. *)
Definition mode_set_named (target : option nat) (name : ContextMode) : M unit :=
  match operator_mode name with
  | Some m => mode_set_on target m
  | None => raise TypeError
  end.

(** [bpy.ops.object.mode_set(mode=m)] *)
Definition mode_set (m : Mode) : M unit :=
  do w <- get_world;
  mode_set_on (active w) m.

(** [bpy.context.view_layer.objects.active = ob] *)
Definition assign_active (ob : option nat) : M unit :=
  do_ emit (EvSetActive ob);
  modify (set_active ob).

(** [ob.mode] for a possibly-[None] object reference. *)
Definition mode_of (ob : option nat) : M Mode :=
  do w <- get_world;
  match ob with
  | None => raise AttributeError
  | Some i =>
      match objects w !! i with
      | Some o => ret (ob_mode o)
      | None => raise ReferenceError
      end
  end.

(** [ob.data], [ob.mixer_uuid] for an object handle; a handle whose object
    is gone raises [ReferenceError]. *)
Definition get_object (i : nat) : M Object :=
  do w <- get_world;
  match objects w !! i with
  | Some o => ret o
  | None => raise ReferenceError
  end.

(** [d.mixer_uuid] for a possibly-[None] datablock reference. *)
Definition mixer_uuid_of (d : option Datablock) : M string :=
  match d with
  | Some d => ret (db_mixer_uuid d)
  | None => raise AttributeError
  end.

(** [isinstance(d, T.Armature)] *)
Definition isinstance_Armature (d : option Datablock) : bool :=
  match d with
  | Some d => bool_decide (db_kind d = Armature)
  | None => false
  end.

(** ** Collaborators

    The generic proxy machinery ([DatablockProxy], [write_attribute], the
    visit state, the unresolved-reference table) is defined in other
    modules.  Each collaborator is taken as a function on worlds.  The
    proxy is passed by value: [base_load] and [base_apply] return the new
    state of [self]. *)
Record Externals := mkExternals {
  _pre_save : Proxy -> Datablock -> External (option Datablock);
  enter_datablock : Proxy -> Datablock -> External unit;
  exit_datablock : Proxy -> Datablock -> External unit;
  write_attribute : option Datablock -> string -> Value -> External unit;
  custom_properties_save : Proxy -> Datablock -> External unit;
  base_load : Proxy -> Datablock -> External Proxy;
  base_diff : Proxy -> Datablock -> string -> Proxy -> External (option Delta);
  base_apply : Proxy -> Datablock -> Key -> Delta -> bool -> External Proxy;
  resolve : string -> nat -> External unit
}.

(** What [_save] returns: the datablock, or the pair [(None, None)]. *)
Inductive SaveResult :=
| Saved (d : Datablock)
| NonePair.

(** ** The module *)

(** [override_context()] *)
Definition has_view_3d (win : Window) : bool :=
  bool_decide ("VIEW_3D" ∈ screen_areas win).

Fixpoint first_view_3d_window (i : nat) (wins : list Window) : option (nat * Window) :=
  match wins with
  | [] => None
  | win :: rest =>
      if has_view_3d win then Some (i, win) else first_view_3d_window (S i) rest
  end.

Definition override_context (w : World) : option Ctx :=
  match first_view_3d_window 0 (windows w) with
  | Some (i, win) =>
      Some (mkCtx (Some i) (Some i) (head (screen_areas win))
                  (active w) (context_mode w))
  | None => None
  end.

Module ArmatureProxy.

Section WithExternals.
Context (X : Externals).

Fixpoint find_from (i : nat) (obs : list Object) (datablock : Datablock) : option nat :=
  match obs with
  | [] => None
  | ob :: rest =>
      if bool_decide (ob_data ob = Some datablock) then Some i
      else find_from (S i) rest datablock
  end.

Definition find_armature_parent_object (w : World) (datablock : Datablock) : option nat :=
  find_from 0 (objects w) datablock.

(** The body of the [for k, v in self._data.items()] loop of [_save]. *)
Fixpoint save_items (datablock : Datablock) (items : list (string * Value)) : M unit :=
  match items with
  | [] => ret tt
  | (k, v) :: rest =>
      do_ (if bool_decide (k <> "edit_bones")
           then call (CWriteAttribute (Some datablock) k v)
                     (write_attribute X (Some datablock) k v)
           else
             do_ emit (EvCacheSet (db_mixer_uuid datablock) v);
             modify (fun w => set_edit_bones_map
                                (<[db_mixer_uuid datablock := v]> (_edit_bones_map w)) w));
      save_items datablock rest
  end.

(** The warning of [_save] is an f-string over [self]; the rendering of the
    proxy is kept as the placeholder [{self}]. *)
Definition _save (self : Proxy) (datablock : Datablock) : M SaveResult :=
  do datablock <- call (CPreSave datablock) (_pre_save X self datablock);
  match datablock with
  | None =>
      do_ emit (EvLog WARNING
                  "DatablockProxy.update_standalone_datablock() {self} pre_save returns None");
      ret NonePair
  | Some datablock =>
      do_ with_cm (call (CEnterDatablock datablock) (enter_datablock X self datablock))
                  (call (CExitDatablock datablock) (exit_datablock X self datablock))
                  (save_items datablock (_data self));
      do_ call (CCustomPropertiesSave datablock) (custom_properties_save X self datablock);
      ret (Saved datablock)
  end.

Definition load (self : Proxy) (datablock : Datablock) : M Proxy :=
  do w <- get_world;
  match find_armature_parent_object w datablock with
  | None => ret self
  | Some obj =>
      match override_context w with
      | None => raise TypeError
      | Some ctx =>
          let ctx := mkCtx (ctx_window ctx) (ctx_screen ctx) (ctx_area ctx)
                           (Some obj) (ctx_mode ctx) in
          let previous_mode := ctx_mode ctx in
          do_ mode_set_on (ctx_active_object ctx) EDIT;
          do self <- call (CBaseLoad datablock) (base_load X self datablock);
          do_ mode_set_named (ctx_active_object ctx) previous_mode;
          ret self
      end
  end.

Definition _diff (self : Proxy) (armature : Datablock) (key : string) (diff : Proxy)
  : M (option Delta) :=
  do w <- get_world;
  let prev_active := active w in
  do prev_active_mode <- mode_of prev_active;
  let obj := find_armature_parent_object w armature in
  do_ assign_active obj;
  do prev_obj_mode <- mode_of obj;
  do_ mode_set EDIT;
  do res <- call (CBaseDiff armature key) (base_diff X self armature key diff);
  do_ mode_set prev_obj_mode;
  do_ assign_active prev_active;
  do_ mode_set prev_active_mode;
  ret res.

Definition apply (self : Proxy) (attribute : Datablock) (key : Key) (delta : Delta)
    (to_blender : bool) : M Proxy :=
  match key with
  | KInt _ => raise AssertionError
  | KStr _ =>
      do w <- get_world;
      let prev_active := active w in
      do prev_active_mode <- mode_of prev_active;
      let obj := find_armature_parent_object w attribute in
      do_ assign_active obj;
      do prev_obj_mode <- mode_of obj;
      do_ mode_set EDIT;
      do updated_proxy <- call (CBaseApply attribute key delta to_blender)
                               (base_apply X self attribute key delta to_blender);
      do_ mode_set prev_obj_mode;
      do_ assign_active prev_active;
      do_ mode_set prev_active_mode;
      ret updated_proxy
  end.

(** [del ArmatureProxy._edit_bones_map[k]] *)
Definition del_edit_bones (k : string) : M unit :=
  do_ emit (EvCacheDel k);
  do w <- get_world;
  match _edit_bones_map w !! k with
  | Some _ => modify (fun w => set_edit_bones_map (delete k (_edit_bones_map w)) w)
  | None => raise KeyError
  end.

Definition apply_edit_bones (obj : nat) : M unit :=
  do ob <- get_object obj;
  if negb (isinstance_Armature (ob_data ob)) then ret tt
  else
    do uuid <- mixer_uuid_of (ob_data ob);
    do_ emit (EvCacheGet uuid);
    do w <- get_world;
    match _edit_bones_map w !! uuid with
    | None =>
        do_ emit (EvLog ERROR "No edit bones found");
        ret tt
    | Some edit_bones =>
        match py_len edit_bones with
        | inl e => raise e
        | inr 0 => ret tt
        | inr (S _) =>
            do_ call (CResolve (ob_mixer_uuid ob) obj) (resolve X (ob_mixer_uuid ob) obj);
            do w <- get_world;
            do_ (if bool_decide (context_mode w <> CONTEXT_OBJECT)
                 then mode_set OBJECT else ret tt);
            do_ assign_active (Some obj);
            do_ mode_set EDIT;
            do_ try_except_pass
                  (do ob <- get_object obj;
                   call (CWriteAttribute (ob_data ob) "edit_bones" edit_bones)
                        (write_attribute X (ob_data ob) "edit_bones" edit_bones));
            do ob <- get_object obj;
            do uuid <- mixer_uuid_of (ob_data ob);
            do_ del_edit_bones uuid;
            mode_set OBJECT
        end
    end.

End WithExternals.
End ArmatureProxy.

(** ** Reading the result of a run *)

Definition trace_of {A} (r : list Event * World * Outcome A) : list Event := r.1.1.
Definition world_of {A} (r : list Event * World * Outcome A) : World := r.1.2.
Definition outcome_of {A} (r : list Event * World * Outcome A) : Outcome A := r.2.

(** ** Insertion-ordered dictionaries *)

Fixpoint dict_get (k : string) (l : list (string * Value)) : option Value :=
  match l with
  | [] => None
  | (k', v) :: rest => if bool_decide (k' = k) then Some v else dict_get k rest
  end.

Fixpoint dict_set (k : string) (v : Value) (l : list (string * Value)) : list (string * Value) :=
  match l with
  | [] => [(k, v)]
  | (k', v') :: rest =>
      if bool_decide (k' = k) then (k, v) :: rest else (k', v') :: dict_set k v rest
  end.

Fixpoint dict_del (k : string) (l : list (string * Value)) : list (string * Value) :=
  match l with
  | [] => []
  | (k', v') :: rest =>
      if bool_decide (k' = k) then dict_del k rest else (k', v') :: dict_del k rest
  end.

(** ** The generic proxy machinery, as the specification describes it *)

Module GenericProxy.

(** Modelled from the spec: the gated region of a datablock is accessible
    only while an object that references the datablock is in the gated
    mode. *)
Definition in_edit_mode (w : World) (d : Datablock) : bool :=
  existsb (fun ob => bool_decide (ob_data ob = Some d) && bool_decide (ob_mode ob = EDIT))
          (objects w).

(** Modelled from the spec: [DatablockProxy.load] is not in this module.
    It captures every ordinary attribute of the document object and, where
    the gated region is accessible, the gated region as well; otherwise the
    gated region is left unset. *)
Definition load (self : Proxy) (d : Datablock) : External Proxy :=
  fun w =>
    match doc w !! db_mixer_uuid d with
    | None => (w, Raise ReferenceError)
    | Some c =>
        if in_edit_mode w d
        then (w, Ok (mkProxy (dict_set "edit_bones" (VBones (live_edit_bones c)) (attrs c))))
        else (w, Ok (mkProxy (attrs c)))
    end.

(** Modelled from the spec: [write_attribute] of [attributes] is not in
    this module.  It writes one attribute of the document object; the
    gated region can be written only in the gated mode and holds a
    sequence of bones. *)
Definition write_attribute (d : option Datablock) (k : string) (v : Value) : External unit :=
  fun w =>
    match d with
    | None => (w, Raise AttributeError)
    | Some d =>
        match doc w !! db_mixer_uuid d with
        | None => (w, Raise ReferenceError)
        | Some c =>
            if bool_decide (k = "edit_bones") then
              match v with
              | VBones bs =>
                  if in_edit_mode w d
                  then (set_doc (<[db_mixer_uuid d := mkContent (attrs c) bs]> (doc w)) w, Ok tt)
                  else (w, Raise RuntimeError)
              | _ => (w, Raise TypeError)
              end
            else
              (set_doc (<[db_mixer_uuid d := mkContent (dict_set k v (attrs c)) (live_edit_bones c)]>
                          (doc w)) w, Ok tt)
        end
    end.

(** Modelled from the spec: removing one attribute of the document object,
    the counterpart of [write_attribute] for a delta that removes. *)
Definition remove_attribute (d : Datablock) (k : string) : External unit :=
  fun w =>
    match doc w !! db_mixer_uuid d with
    | None => (w, Raise ReferenceError)
    | Some c =>
        if bool_decide (k = "edit_bones") then
          if in_edit_mode w d
          then (set_doc (<[db_mixer_uuid d := mkContent (attrs c) []]> (doc w)) w, Ok tt)
          else (w, Raise RuntimeError)
        else
          (set_doc (<[db_mixer_uuid d := mkContent (dict_del k (attrs c)) (live_edit_bones c)]>
                      (doc w)) w, Ok tt)
    end.

(** Modelled from the spec: [DatablockProxy.apply] is not in this module.
    A delta describes a change to one attribute (add / remove / update);
    applying it makes the proxy, and with write-through the document,
    match the delta's target. *)
Definition apply_to_data (delta : Delta) (l : list (string * Value)) : list (string * Value) :=
  match delta_op delta with
  | DeltaAddition v | DeltaUpdate v => dict_set (delta_attr delta) v l
  | DeltaDeletion => dict_del (delta_attr delta) l
  end.

(** Modelled from the spec: the write-through half of [DatablockProxy.apply]. *)
Definition apply_to_document (d : Datablock) (delta : Delta) : External unit :=
  match delta_op delta with
  | DeltaAddition v | DeltaUpdate v => write_attribute (Some d) (delta_attr delta) v
  | DeltaDeletion => remove_attribute d (delta_attr delta)
  end.

(** Modelled from the spec: [DatablockProxy.apply], the delta applied to the
    proxy and, when [to_blender] is set, to the document first. *)
Definition apply (self : Proxy) (d : Datablock) (key : Key) (delta : Delta)
    (to_blender : bool) : External Proxy :=
  fun w =>
    if to_blender then
      match apply_to_document d delta w with
      | (w', Ok _) => (w', Ok (mkProxy (apply_to_data delta (_data self))))
      | (w', Raise e) => (w', Raise e)
      end
    else (w, Ok (mkProxy (apply_to_data delta (_data self)))).

(** Modelled from the spec: [DatablockProxy._diff] is not in this module.
    It compares the captured value of one attribute with the live one; the
    live value of the gated region can be read in the gated mode only. *)
Definition live_value (w : World) (d : Datablock) (k : string) : option Value :=
  match doc w !! db_mixer_uuid d with
  | None => None
  | Some c =>
      if bool_decide (k = "edit_bones")
      then (if in_edit_mode w d then Some (VBones (live_edit_bones c)) else None)
      else dict_get k (attrs c)
  end.

(** Modelled from the spec: [DatablockProxy._diff], with no delta when the
    captured and the live value agree. *)
Definition _diff (self : Proxy) (d : Datablock) (key : string) (diff : Proxy)
  : External (option Delta) :=
  fun w =>
    match dict_get key (_data self), live_value w d key with
    | None, None => (w, Ok None)
    | None, Some v => (w, Ok (Some (mkDelta key (DeltaAddition v))))
    | Some _, None => (w, Ok (Some (mkDelta key DeltaDeletion)))
    | Some v0, Some v =>
        if bool_decide (v0 = v) then (w, Ok None)
        else (w, Ok (Some (mkDelta key (DeltaUpdate v))))
    end.

(** Collaborators that leave the world alone. *)
Definition accept (self : Proxy) (d : Datablock) : External (option Datablock) :=
  fun w => (w, Ok (Some d)).
Definition reject (self : Proxy) (d : Datablock) : External (option Datablock) :=
  fun w => (w, Ok None).
Definition skip2 {A B : Type} (_ : A) (_ : B) : External unit :=
  fun w => (w, Ok tt).

Definition externals : Externals :=
  mkExternals accept skip2 skip2 write_attribute skip2 load _diff apply skip2.

End GenericProxy.

(** Collaborators used to exercise the failure paths. *)
Definition failing {A : Type} (e : Exn) : External A := fun w => (w, Raise e).

Definition with_write_attribute
    (f : option Datablock -> string -> Value -> External unit) (X : Externals) : Externals :=
  mkExternals (_pre_save X) (enter_datablock X) (exit_datablock X) f
              (custom_properties_save X) (base_load X) (base_diff X) (base_apply X) (resolve X).
Definition with_pre_save
    (f : Proxy -> Datablock -> External (option Datablock)) (X : Externals) : Externals :=
  mkExternals f (enter_datablock X) (exit_datablock X) (write_attribute X)
              (custom_properties_save X) (base_load X) (base_diff X) (base_apply X) (resolve X).
Definition with_base_apply
    (f : Proxy -> Datablock -> Key -> Delta -> bool -> External Proxy) (X : Externals) : Externals :=
  mkExternals (_pre_save X) (enter_datablock X) (exit_datablock X) (write_attribute X)
              (custom_properties_save X) (base_load X) (base_diff X) f (resolve X).

(** ** A small scene

    One armature [rig] with two bones, owned by object 1; object 0 is a
    second armature object.  One window shows a 3D view. *)
Module Scene.

Definition rig : Datablock := mkDatablock Armature "uuid-rig".
Definition other_rig : Datablock := mkDatablock Armature "uuid-other".
Definition cube : Datablock := mkDatablock OtherKind "uuid-cube".

Definition b1 : Bone := mkBone "root" None.
Definition b2 : Bone := mkBone "spine" (Some "root").

Definition contents : gmap string Content :=
  <["uuid-rig" := mkContent [("name", VStr "rig")] [b1; b2]]>
  (<["uuid-other" := mkContent [("name", VStr "other")] []]>
  (<["uuid-cube" := mkContent [("name", VStr "cube")] []]> ∅)).

Definition view : list Window := [mkWindow ["PROPERTIES"; "VIEW_3D"]].

(** The owner of [rig] is active and in [OBJECT] mode. *)
Definition owner_active : World :=
  mkWorld [mkObject "uuid-ob-other" (Some other_rig) OBJECT;
           mkObject "uuid-ob-rig" (Some rig) OBJECT]
          (Some 1) view contents ∅.

(** Another armature object is active, in [POSE] mode; the owner of [rig]
    is in [OBJECT] mode. *)
Definition other_posing : World :=
  mkWorld [mkObject "uuid-ob-other" (Some other_rig) POSE;
           mkObject "uuid-ob-rig" (Some rig) OBJECT]
          (Some 0) view contents ∅.

(** No object references [rig]. *)
Definition no_owner : World :=
  mkWorld [mkObject "uuid-ob-cube" (Some cube) OBJECT] (Some 0) view contents ∅.

(** Object 0 owns a mesh. *)
Definition mesh_owner : World :=
  mkWorld [mkObject "uuid-ob-cube" (Some cube) OBJECT] (Some 0) view contents
          (<["uuid-rig" := VBones [b1]]> ∅).

Definition pending (v : Value) (w : World) : World :=
  set_edit_bones_map (<["uuid-rig" := v]> (_edit_bones_map w)) w.

Definition empty_proxy : Proxy := mkProxy [].
Definition rig_proxy : Proxy :=
  mkProxy [("name", VStr "rig"); ("edit_bones", VBones [b1; b2]); ("layers", VInt 3)].

End Scene.

(** ** Vocabulary of the properties *)

Import ArmatureProxy.

(** Classes of events. *)
Definition is_write (e : Event) : bool :=
  match e with
  | EvCall (CWriteAttribute _ _ _) => true
  | _ => false
  end.

Definition is_log (e : Event) : bool :=
  match e with
  | EvLog _ _ => true
  | _ => false
  end.

Definition is_del (e : Event) : bool :=
  match e with
  | EvCacheDel _ => true
  | _ => false
  end.

(** What [_save] does with one captured item. *)
Definition save_event (datablock : Datablock) (item : string * Value) : Event :=
  if bool_decide (item.1 <> "edit_bones")
  then EvCall (CWriteAttribute (Some datablock) item.1 item.2)
  else EvCacheSet (db_mixer_uuid datablock) item.2.


(** A collaborator that leaves [_edit_bones_map] alone. *)
Definition keeps_edit_bones_map {A : Type} (f : External A) : Prop :=
  forall w, _edit_bones_map (f w).1 = _edit_bones_map w.

(** The mode of object [i] set to [m]. *)
Definition put_mode (i : nat) (m : Mode) (w : World) : World :=
  match objects w !! i with
  | Some ob => set_objects (<[i := with_mode m ob]> (objects w)) w
  | None => w
  end.

(** The defensive return to [OBJECT] mode at line 175. *)
Definition baseline (w : World) : World :=
  if bool_decide (context_mode w <> CONTEXT_OBJECT)
  then match active w with Some a => put_mode a OBJECT w | None => w end
  else w.

Definition baseline_trace (w : World) : list Event :=
  if bool_decide (context_mode w <> CONTEXT_OBJECT)
  then [EvModeSet (active w) OBJECT] else [].

(** The world in which [apply_edit_bones] calls [write_attribute]. *)
Definition write_world (obj : nat) (w : World) : World :=
  put_mode obj EDIT (set_active (Some obj) (baseline w)).

(** Same selection, same objects, same [_edit_bones_map]: at most the
    contents of the document differ. *)
Definition same_frame (w w' : World) : Prop :=
  objects w' = objects w /\ active w' = active w /\ _edit_bones_map w' = _edit_bones_map w.

(** The code shared, line for line, by [_diff] and [apply] around the
    delegated call. *)
Definition edit_bracket {A : Type} (datablock : Datablock) (body : M A) : M A :=
  do w <- get_world;
  let prev_active := active w in
  do prev_active_mode <- mode_of prev_active;
  let obj := find_armature_parent_object w datablock in
  do_ assign_active obj;
  do prev_obj_mode <- mode_of obj;
  do_ mode_set EDIT;
  do res <- body;
  do_ mode_set prev_obj_mode;
  do_ assign_active prev_active;
  do_ mode_set prev_active_mode;
  ret res.

(** The world in which the delegated call runs. *)
Definition edit_world (o : nat) (w : World) : World :=
  put_mode o EDIT (set_active (Some o) w).

(** The world [wb] with the objects and the selection of [w]. *)
Definition restored (w wb : World) : World :=
  set_active (active w) (set_objects (objects w) wb).

(** The proxy after a run: the one returned, or [self] when the run raised. *)
Definition proxy_after (self : Proxy) (r : list Event * World * Outcome Proxy) : Proxy :=
  match outcome_of r with
  | Ok p => p
  | Raise _ => self
  end.

(** Collaborators whose [write_attribute] always raises. *)
Definition failing_write : Externals :=
  with_write_attribute (fun _ _ _ => failing (OtherException "boom")) GenericProxy.externals.

(** Collaborators whose base [apply] always raises. *)
Definition failing_apply : Externals :=
  with_base_apply (fun _ _ _ _ _ => failing (OtherException "boom")) GenericProxy.externals.

(** Accesses to [_edit_bones_map]. *)
Definition is_cache_access (e : Event) : bool :=
  match e with
  | EvCacheGet _ | EvCacheSet _ _ | EvCacheDel _ => true
  | _ => false
  end.

(** Mode switches and changes of the active object. *)
Definition is_host_change (e : Event) : bool :=
  match e with
  | EvSetActive _ | EvModeSet _ _ => true
  | _ => false
  end.

(** Collaborators whose [write_attribute] is interrupted from the keyboard. *)
Definition interrupted_write : Externals :=
  with_write_attribute (fun _ _ _ => failing KeyboardInterrupt) GenericProxy.externals.

(** Collaborators whose [write_attribute] refuses the key ["layers"]. *)
Definition refusing_layers : Externals :=
  with_write_attribute
    (fun d k v => if bool_decide (k = "layers") then failing (OtherException "read-only")
                  else GenericProxy.write_attribute d k v)
    GenericProxy.externals.

(** Collaborators whose [resolve] raises. *)
Definition failing_resolve : Externals :=
  mkExternals GenericProxy.accept GenericProxy.skip2 GenericProxy.skip2
              GenericProxy.write_attribute GenericProxy.skip2 GenericProxy.load
              GenericProxy._diff GenericProxy.apply
              (fun _ _ => failing (OtherException "unresolved")).

(** More scenes: no window at all; nothing active; a proxy without
    [edit_bones]; a proxy whose ["layers"] come before its [edit_bones]. *)
Definition headless : World :=
  mkWorld (objects Scene.owner_active) (Some 1) [] Scene.contents ∅.

(** The owner of [rig] is active and in [EDIT] mode. *)
Definition owner_editing : World :=
  mkWorld [mkObject "uuid-ob-other" (Some Scene.other_rig) OBJECT;
           mkObject "uuid-ob-rig" (Some Scene.rig) EDIT]
          (Some 1) Scene.view Scene.contents ∅.

Definition nothing_active : World :=
  mkWorld (objects Scene.owner_active) None Scene.view Scene.contents ∅.

Definition plain_proxy : Proxy :=
  mkProxy [("name", VStr "rig"); ("layers", VInt 3)].

Definition layers_first_proxy : Proxy :=
  mkProxy [("name", VStr "rig"); ("layers", VInt 3); ("edit_bones", VBones [Scene.b1])].

(** * Properties *)

Ltac unfold_monad :=
  unfold get_object, mixer_uuid_of, mode_of, mode_set, mode_set_on, assign_active,
    del_edit_bones, with_cm, try_except_pass, call, bind, ret, raise, emit,
    get_world, modify in *.

(** ** [apply_edit_bones]: the early returns *)

(** C10. When the data of the object is not an Armature, [apply_edit_bones]
    returns at once: the trace is empty (no log record, no access to
    [_edit_bones_map], no mode switch) and the world is the one it was
    called in. *)
Theorem apply_edit_bones_not_armature (X : Externals) (w : World) (obj : nat) (ob : Object) :
  objects w !! obj = Some ob ->
  isinstance_Armature (ob_data ob) = false ->
  apply_edit_bones X obj w = ([], w, Ok tt).
Proof.
  intros Hob Hkind. unfold apply_edit_bones. unfold_monad.
  rewrite Hob. simpl. rewrite Hkind. reflexivity.
Qed.

Lemma apply_edit_bones_not_armature_witness :
  apply_edit_bones GenericProxy.externals 0 Scene.mesh_owner = ([], Scene.mesh_owner, Ok tt).
Proof.
  apply (apply_edit_bones_not_armature GenericProxy.externals Scene.mesh_owner 0
           (mkObject "uuid-ob-cube" (Some Scene.cube) OBJECT)); reflexivity.
Defined.

Lemma apply_edit_bones_empty_run (X : Externals) (w : World) (obj : nat) (ob : Object)
    (d : Datablock) (v : Value) :
  objects w !! obj = Some ob ->
  ob_data ob = Some d ->
  db_kind d = Armature ->
  _edit_bones_map w !! db_mixer_uuid d = Some v ->
  py_len v = inr 0 ->
  apply_edit_bones X obj w = ([EvCacheGet (db_mixer_uuid d)], w, Ok tt).
Proof.
  intros Hob Hdata Hkind Hentry Hlen. unfold apply_edit_bones. unfold_monad.
  rewrite Hob. simpl. rewrite Hdata. simpl. rewrite Hkind. simpl.
  rewrite Hentry, Hlen. reflexivity.
Qed.

(** C9. When the entry of [_edit_bones_map] for the armature of the object
    is an empty sequence, [apply_edit_bones] returns after the lookup:
    nothing is written and no mode switch is performed, so the world (the
    live [edit_bones] of the armature included) is the one it was called
    in. *)
Theorem apply_edit_bones_empty_entry (X : Externals) (w : World) (obj : nat) (ob : Object)
    (d : Datablock) (v : Value) :
  objects w !! obj = Some ob ->
  ob_data ob = Some d ->
  db_kind d = Armature ->
  _edit_bones_map w !! db_mixer_uuid d = Some v ->
  py_len v = inr 0 ->
  let r := apply_edit_bones X obj w in
  outcome_of r = Ok tt /\
  world_of r = w /\
  trace_of r = [EvCacheGet (db_mixer_uuid d)].
Proof.
  intros Hob Hdata Hkind Hentry Hlen r. subst r.
  by rewrite (apply_edit_bones_empty_run X w obj ob d v).
Qed.

Lemma apply_edit_bones_empty_entry_witness :
  let w := Scene.pending (VBones []) Scene.owner_active in
  let r := apply_edit_bones GenericProxy.externals 1 w in
  outcome_of r = Ok tt /\ world_of r = w /\ trace_of r = [EvCacheGet "uuid-rig"].
Proof.
  apply (apply_edit_bones_empty_entry GenericProxy.externals
           (Scene.pending (VBones []) Scene.owner_active) 1
           (mkObject "uuid-ob-rig" (Some Scene.rig) OBJECT) Scene.rig (VBones []));
    reflexivity.
Defined.

(** ** [_save] *)

(** C7. When the pre-save hook returns no datablock, [_save] logs a warning
    and returns the pair [(None, None)]; it leaves the world as the hook left
    it and calls [write_attribute] not once. *)
Theorem save_rejected (X : Externals) (self : Proxy) (datablock : Datablock) (w w1 : World) :
  _pre_save X self datablock w = (w1, Ok None) ->
  _save X self datablock w
  = ([EvCall (CPreSave datablock);
      EvLog WARNING "DatablockProxy.update_standalone_datablock() {self} pre_save returns None"],
     w1, Ok NonePair)
  /\ filter is_write (trace_of (_save X self datablock w)) = [].
Proof.
  intros Hpre.
  assert (_save X self datablock w
          = ([EvCall (CPreSave datablock);
              EvLog WARNING
                "DatablockProxy.update_standalone_datablock() {self} pre_save returns None"],
             w1, Ok NonePair)) as Hrun.
  { unfold _save. unfold_monad. by rewrite Hpre. }
  split; [exact Hrun|]. by rewrite Hrun.
Qed.

Lemma save_rejected_witness :
  let X := with_pre_save GenericProxy.reject GenericProxy.externals in
  _save X Scene.rig_proxy Scene.rig Scene.owner_active
  = ([EvCall (CPreSave Scene.rig);
      EvLog WARNING "DatablockProxy.update_standalone_datablock() {self} pre_save returns None"],
     Scene.owner_active, Ok NonePair)
  /\ filter is_write (trace_of (_save X Scene.rig_proxy Scene.rig Scene.owner_active)) = [].
Proof.
  apply (save_rejected (with_pre_save GenericProxy.reject GenericProxy.externals)
           Scene.rig_proxy Scene.rig Scene.owner_active Scene.owner_active).
  reflexivity.
Defined.

Section Save.
Context (X : Externals).

Lemma save_items_trace (d : Datablock) (items : list (string * Value)) :
  forall w t w', save_items X d items w = (t, w', Ok tt) -> t = map (save_event d) items.
Proof.
  induction items as [|[k v] rest IH]; intros w t w' Hrun; simpl in Hrun.
  - unfold ret in Hrun. simpl in Hrun. by injection Hrun as <- <-.
  - unfold bind at 1 in Hrun. unfold save_event at 1. simpl.
    destruct (bool_decide (k <> "edit_bones")).
    + unfold call in Hrun.
      destruct (write_attribute X (Some d) k v w) as [w1 [[]|e]]; [|discriminate].
      destruct (save_items X d rest w1) as [[t2 w2] o2] eqn:Hrest.
      injection Hrun as <- <- ->. simpl. f_equal. eauto.
    + unfold_monad. simpl in Hrun.
      destruct (save_items X d rest _) as [[t2 w2] o2] eqn:Hrest.
      injection Hrun as <- <- ->. simpl. f_equal. eauto.
Qed.

Lemma save_items_keeps_map (d : Datablock) (items : list (string * Value)) :
  (forall k v, keeps_edit_bones_map (write_attribute X (Some d) k v)) ->
  "edit_bones" ∉ items.*1 ->
  forall w t w' o, save_items X d items w = (t, w', o) ->
                   _edit_bones_map w' = _edit_bones_map w.
Proof.
  intros Hkeep. induction items as [|[k v] rest IH]; intros Hnotin w t w' o Hrun;
    simpl in Hrun.
  - unfold ret in Hrun. simpl in Hrun. by injection Hrun as <- <-.
  - simpl in Hnotin. apply not_elem_of_cons in Hnotin as [Hne Hnotin].
    unfold bind at 1 in Hrun.
    rewrite bool_decide_eq_true_2 in Hrun by (intros ->; by apply Hne).
    unfold call in Hrun. specialize (Hkeep k v w).
    destruct (write_attribute X (Some d) k v w) as [w1 [[]|e]]; simpl in Hkeep.
    + destruct (save_items X d rest w1) as [[t2 w2] o2] eqn:Hrest.
      injection Hrun as <- <- <-. rewrite <- Hkeep. eauto.
    + injection Hrun as <- <- <-. done.
Qed.

Lemma save_items_stashes (d : Datablock) (items : list (string * Value)) (v : Value) :
  (forall k v, keeps_edit_bones_map (write_attribute X (Some d) k v)) ->
  NoDup items.*1 ->
  ("edit_bones", v) ∈ items ->
  forall w t w', save_items X d items w = (t, w', Ok tt) ->
                 _edit_bones_map w' !! db_mixer_uuid d = Some v.
Proof.
  intros Hkeep. induction items as [|[k v'] rest IH]; intros Hnodup Hin w t w' Hrun.
  - by apply elem_of_nil in Hin.
  - simpl in Hnodup. apply NoDup_cons in Hnodup as [Hfresh Hnodup].
    simpl in Hrun. unfold bind at 1 in Hrun.
    apply elem_of_cons in Hin as [Heq|Hin].
    + injection Heq as <- <-.
      rewrite bool_decide_eq_false_2 in Hrun by (intros Hne; by apply Hne).
      unfold_monad. simpl in Hrun.
      destruct (save_items X d rest _) as [[t2 w2] o2] eqn:Hrest.
      injection Hrun as <- <- ->.
      rewrite (save_items_keeps_map d rest Hkeep Hfresh _ _ _ _ Hrest). simpl.
      apply lookup_insert_eq.
    + assert (k <> "edit_bones") as Hne.
      { intros ->. apply Hfresh. apply list_elem_of_fmap. by exists ("edit_bones", v). }
      rewrite bool_decide_eq_true_2 in Hrun by done.
      unfold call in Hrun.
      destruct (write_attribute X (Some d) k v' w) as [w1 [[]|e]]; [|discriminate].
      destruct (save_items X d rest w1) as [[t2 w2] o2] eqn:Hrest.
      injection Hrun as <- <- ->. eauto.
Qed.



End Save.

Lemma generic_write_keeps_map (d : option Datablock) (k : string) (v : Value) :
  keeps_edit_bones_map (GenericProxy.write_attribute d k v).
Proof.
  intros w. unfold GenericProxy.write_attribute. repeat case_match; reflexivity.
Qed.

Lemma skip2_keeps_map {A B : Type} (a : A) (b : B) :
  keeps_edit_bones_map (GenericProxy.skip2 a b).
Proof. intros w. reflexivity. Qed.


(** ** [apply_edit_bones]: the commit *)

Lemma put_mode_lookup (i j : nat) (m : Mode) (w : World) :
  objects (put_mode i m w) !! j
  = (fun ob => if bool_decide (i = j) then with_mode m ob else ob) <$> objects w !! j.
Proof.
  unfold put_mode. destruct (objects w !! i) as [ob|] eqn:Hi; simpl.
  - case_bool_decide as Hij.
    + subst j. rewrite Hi. simpl.
      apply list_lookup_insert_eq. by eapply lookup_lt_Some.
    + rewrite list_lookup_insert_ne by done. by destruct (objects w !! j).
  - case_bool_decide as Hij.
    + subst j. by rewrite Hi.
    + by destruct (objects w !! j).
Qed.

Lemma put_mode_active (i : nat) (m : Mode) (w : World) :
  active (put_mode i m w) = active w.
Proof. unfold put_mode. by destruct (objects w !! i). Qed.

Lemma put_mode_map (i : nat) (m : Mode) (w : World) :
  _edit_bones_map (put_mode i m w) = _edit_bones_map w.
Proof. unfold put_mode. by destruct (objects w !! i). Qed.

Lemma put_mode_windows (i : nat) (m : Mode) (w : World) :
  windows (put_mode i m w) = windows w.
Proof. unfold put_mode. by destruct (objects w !! i). Qed.

Lemma put_mode_doc (i : nat) (m : Mode) (w : World) :
  doc (put_mode i m w) = doc w.
Proof. unfold put_mode. by destruct (objects w !! i). Qed.

Lemma baseline_lookup (j : nat) (w : World) (ob : Object) :
  objects w !! j = Some ob ->
  exists m, objects (baseline w) !! j = Some (with_mode m ob).
Proof.
  intros Hj. unfold baseline. case_bool_decide.
  - destruct (active w) as [a|].
    + rewrite put_mode_lookup, Hj. simpl. case_bool_decide; eauto.
      exists (ob_mode ob). by destruct ob.
    + exists (ob_mode ob). by destruct ob.
  - exists (ob_mode ob). by destruct ob.
Qed.

Lemma mode_set_on_run (i : nat) (m : Mode) (w : World) (ob : Object) :
  objects w !! i = Some ob ->
  mode_set_on (Some i) m w = ([EvModeSet (Some i) m], put_mode i m w, Ok tt).
Proof. intros Hi. unfold put_mode. unfold_monad. simpl. by rewrite Hi. Qed.

Lemma mode_set_run (i : nat) (m : Mode) (w : World) (ob : Object) :
  active w = Some i ->
  objects w !! i = Some ob ->
  mode_set m w = ([EvModeSet (Some i) m], put_mode i m w, Ok tt).
Proof.
  intros Ha Hi. unfold mode_set, bind, get_world. rewrite Ha.
  by rewrite (mode_set_on_run i m w ob Hi).
Qed.

Lemma baseline_run (w : World) :
  (if bool_decide (context_mode w <> CONTEXT_OBJECT) then mode_set OBJECT else ret tt) w
  = (baseline_trace w, baseline w, Ok tt).
Proof.
  unfold baseline, baseline_trace. case_bool_decide as Hmode; [|reflexivity].
  unfold context_mode in Hmode.
  destruct (active w) as [a|] eqn:Ha; [|done].
  destruct (objects w !! a) as [ob|] eqn:Hob; [|done].
  by rewrite (mode_set_run a OBJECT w ob Ha Hob).
Qed.

Lemma run_bind {A B : Type} (m : M A) (f : A -> M B) (w w1 w2 : World)
    (t1 t2 : list Event) (a : A) (o : Outcome B) :
  m w = (t1, w1, Ok a) -> f a w1 = (t2, w2, o) -> bind m f w = (t1 ++ t2, w2, o).
Proof. intros H1 H2. unfold bind. by rewrite H1, H2. Qed.

Lemma run_bind_raise {A B : Type} (m : M A) (f : A -> M B) (w w1 : World)
    (t1 : list Event) (e : Exn) :
  m w = (t1, w1, Raise e) -> bind m f w = (t1, w1, Raise e).
Proof. intros H1. unfold bind. by rewrite H1. Qed.

Lemma baseline_map (w : World) : _edit_bones_map (baseline w) = _edit_bones_map w.
Proof. unfold baseline. repeat case_match; try done. apply put_mode_map. Qed.

Lemma write_world_map (obj : nat) (w : World) :
  _edit_bones_map (write_world obj w) = _edit_bones_map w.
Proof. unfold write_world. by rewrite put_mode_map, <- (baseline_map w). Qed.

Section Commit.
Context (X : Externals).

(** What [apply_edit_bones] does once it has found a non-empty entry, for
    either outcome of the write.  The collaborators are taken to leave the
    selection, the objects and [_edit_bones_map] alone. *)
Lemma apply_edit_bones_commit (w w1 w3 : World) (obj : nat) (ob : Object) (d : Datablock)
    (v : Value) (n : nat) (o : Outcome unit) :
  objects w !! obj = Some ob ->
  ob_data ob = Some d ->
  db_kind d = Armature ->
  _edit_bones_map w !! db_mixer_uuid d = Some v ->
  py_len v = inr (S n) ->
  resolve X (ob_mixer_uuid ob) obj w = (w1, Ok tt) ->
  same_frame w w1 ->
  write_attribute X (Some d) "edit_bones" v (write_world obj w1) = (w3, o) ->
  same_frame (write_world obj w1) w3 ->
  (forall e, o = Raise e -> is_Exception e = true) ->
  apply_edit_bones X obj w
  = ([EvCacheGet (db_mixer_uuid d); EvCall (CResolve (ob_mixer_uuid ob) obj)]
       ++ baseline_trace w1
       ++ [EvSetActive (Some obj); EvModeSet (Some obj) EDIT;
           EvCall (CWriteAttribute (Some d) "edit_bones" v);
           EvCacheDel (db_mixer_uuid d); EvModeSet (Some obj) OBJECT],
     put_mode obj OBJECT
       (set_edit_bones_map (delete (db_mixer_uuid d) (_edit_bones_map w3)) w3),
     Ok tt).
Proof.
  intros Hob Hdata Hkind Hentry Hlen Hres (Hobs1 & Hact1 & Hmap1) Hwrite
    (Hobs3 & Hact3 & Hmap3) Hexn.
  assert (exists m, objects (baseline w1) !! obj = Some (with_mode m ob)) as [m0 Hb].
  { apply baseline_lookup. by rewrite Hobs1. }
  assert (objects (write_world obj w1) !! obj = Some (with_mode EDIT ob)) as Hw.
  { unfold write_world. rewrite put_mode_lookup. simpl. rewrite Hb. simpl.
    by rewrite bool_decide_eq_true_2. }
  etrans.
  { unfold apply_edit_bones.
    eapply run_bind; [by (unfold_monad; rewrite Hob)|]. cbv beta.
    rewrite Hdata. simpl. rewrite Hkind. simpl.
    eapply run_bind; [reflexivity|]. cbv beta.
    eapply run_bind; [reflexivity|]. cbv beta.
    eapply run_bind; [reflexivity|]. cbv beta.
    rewrite Hentry, Hlen.
    eapply run_bind; [by (unfold call; rewrite Hres)|]. cbv beta.
    eapply run_bind; [reflexivity|]. cbv beta.
    eapply run_bind; [apply baseline_run|]. cbv beta.
    eapply run_bind; [reflexivity|]. cbv beta.
    eapply run_bind;
      [apply (mode_set_run obj EDIT _ (with_mode m0 ob)); [reflexivity|exact Hb]|].
    cbv beta. fold (write_world obj w1).
    eapply run_bind.
    { unfold_monad. rewrite Hw. simpl. rewrite Hdata, Hwrite.
      instantiate (1 := tt). instantiate (1 := w3).
      instantiate (1 := [] ++ [EvCall (CWriteAttribute (Some d) "edit_bones" v)]).
      destruct o as [[]|e]; [reflexivity|].
      by rewrite (Hexn e eq_refl). }
    cbv beta.
    eapply run_bind; [by (unfold_monad; rewrite Hobs3, Hw)|]. cbv beta.
    simpl. rewrite Hdata.
    eapply run_bind; [reflexivity|]. cbv beta.
    eapply run_bind.
    { unfold_monad. rewrite Hmap3, write_world_map, Hmap1, Hentry. reflexivity. }
    cbv beta.
    apply (mode_set_run obj OBJECT _ (with_mode EDIT ob)).
    - simpl. rewrite Hact3. unfold write_world. by rewrite put_mode_active.
    - simpl. by rewrite Hobs3. }
  simpl. reflexivity.
Qed.

Lemma apply_edit_bones_interrupted_run (w w1 w3 : World) (obj : nat) (ob : Object)
    (d : Datablock) (v : Value) (n : nat) (e : Exn) :
  objects w !! obj = Some ob ->
  ob_data ob = Some d ->
  db_kind d = Armature ->
  _edit_bones_map w !! db_mixer_uuid d = Some v ->
  py_len v = inr (S n) ->
  resolve X (ob_mixer_uuid ob) obj w = (w1, Ok tt) ->
  objects w1 = objects w ->
  write_attribute X (Some d) "edit_bones" v (write_world obj w1) = (w3, Raise e) ->
  is_Exception e = false ->
  apply_edit_bones X obj w
  = ([EvCacheGet (db_mixer_uuid d); EvCall (CResolve (ob_mixer_uuid ob) obj)]
       ++ baseline_trace w1
       ++ [EvSetActive (Some obj); EvModeSet (Some obj) EDIT;
           EvCall (CWriteAttribute (Some d) "edit_bones" v)],
     w3, Raise e).
Proof.
  intros Hob Hdata Hkind Hentry Hlen Hres Hobs1 Hwrite Hexn.
  assert (exists m, objects (baseline w1) !! obj = Some (with_mode m ob)) as [m0 Hb].
  { apply baseline_lookup. by rewrite Hobs1. }
  assert (objects (write_world obj w1) !! obj = Some (with_mode EDIT ob)) as Hw.
  { unfold write_world. rewrite put_mode_lookup. simpl. rewrite Hb. simpl.
    by rewrite bool_decide_eq_true_2. }
  etrans.
  { unfold apply_edit_bones.
    eapply run_bind; [by (unfold_monad; rewrite Hob)|]. cbv beta.
    rewrite Hdata. simpl. rewrite Hkind. simpl.
    eapply run_bind; [reflexivity|]. cbv beta.
    eapply run_bind; [reflexivity|]. cbv beta.
    eapply run_bind; [reflexivity|]. cbv beta.
    rewrite Hentry, Hlen.
    eapply run_bind; [by (unfold call; rewrite Hres)|]. cbv beta.
    eapply run_bind; [reflexivity|]. cbv beta.
    eapply run_bind; [apply baseline_run|]. cbv beta.
    eapply run_bind; [reflexivity|]. cbv beta.
    eapply run_bind;
      [apply (mode_set_run obj EDIT _ (with_mode m0 ob)); [reflexivity|exact Hb]|].
    cbv beta. fold (write_world obj w1).
    eapply run_bind_raise.
    unfold_monad. rewrite Hw. simpl. rewrite Hdata, Hwrite, Hexn. reflexivity. }
  reflexivity.
Qed.

End Commit.

Lemma baseline_trace_no_log (w : World) : filter is_log (baseline_trace w) = [].
Proof. unfold baseline_trace. by case_bool_decide. Qed.

Lemma baseline_active (w : World) : active (baseline w) = active w.
Proof.
  unfold baseline. case_bool_decide; [|done].
  destruct (active w) as [a|] eqn:Ha; [|done]. by rewrite put_mode_active.
Qed.

(** C4, as the code has it.  When the write of [edit_bones] raises an
    [Exception] (and the collaborators leave the selection, the objects and
    [_edit_bones_map] alone), [apply_edit_bones] returns normally: the
    exception is discarded without a log record, and the object is the
    active one and back in [OBJECT] mode, the context with it. *)
Theorem write_failure_discarded (X : Externals) (w w1 w3 : World) (obj : nat) (ob : Object)
    (d : Datablock) (v : Value) (n : nat) (e : Exn) :
  objects w !! obj = Some ob ->
  ob_data ob = Some d ->
  db_kind d = Armature ->
  _edit_bones_map w !! db_mixer_uuid d = Some v ->
  py_len v = inr (S n) ->
  resolve X (ob_mixer_uuid ob) obj w = (w1, Ok tt) ->
  same_frame w w1 ->
  write_attribute X (Some d) "edit_bones" v (write_world obj w1) = (w3, Raise e) ->
  same_frame (write_world obj w1) w3 ->
  is_Exception e = true ->
  let r := apply_edit_bones X obj w in
  outcome_of r = Ok tt /\
  filter is_log (trace_of r) = [] /\
  trace_of r
  = [EvCacheGet (db_mixer_uuid d); EvCall (CResolve (ob_mixer_uuid ob) obj)]
      ++ baseline_trace w1
      ++ [EvSetActive (Some obj); EvModeSet (Some obj) EDIT;
          EvCall (CWriteAttribute (Some d) "edit_bones" v);
          EvCacheDel (db_mixer_uuid d); EvModeSet (Some obj) OBJECT] /\
  active (world_of r) = Some obj /\
  ob_mode <$> objects (world_of r) !! obj = Some OBJECT /\
  context_mode (world_of r) = CONTEXT_OBJECT /\
  doc (world_of r) = doc w3.
Proof.
  intros Hob Hdata Hkind Hentry Hlen Hres Hf1 Hwrite Hf3 Hexn r. subst r.
  rewrite (apply_edit_bones_commit X w w1 w3 obj ob d v n (Raise e)); try done.
  2:{ intros e' [= <-]. done. }
  destruct Hf1 as (Hobs1 & Hact1 & Hmap1). destruct Hf3 as (Hobs3 & Hact3 & Hmap3).
  assert (exists m, objects (baseline w1) !! obj = Some (with_mode m ob)) as [m0 Hb].
  { apply baseline_lookup. by rewrite Hobs1. }
  assert (objects w3 !! obj = Some (with_mode EDIT ob)) as Hw.
  { rewrite Hobs3. unfold write_world. rewrite put_mode_lookup. simpl. rewrite Hb. simpl.
    by rewrite bool_decide_eq_true_2. }
  assert (objects (put_mode obj OBJECT
            (set_edit_bones_map (delete (db_mixer_uuid d) (_edit_bones_map w3)) w3)) !! obj
          = Some (with_mode OBJECT ob)) as Hfinal.
  { rewrite put_mode_lookup. simpl. rewrite Hw. simpl. by rewrite bool_decide_eq_true_2. }
  assert (active (put_mode obj OBJECT
            (set_edit_bones_map (delete (db_mixer_uuid d) (_edit_bones_map w3)) w3))
          = Some obj) as Hactive.
  { rewrite put_mode_active. simpl. rewrite Hact3. unfold write_world.
    by rewrite put_mode_active. }
  unfold trace_of, world_of, outcome_of. cbn [fst snd]. split; [done|].
  split; [rewrite !filter_app, baseline_trace_no_log; reflexivity|].
  split; [done|]. split; [exact Hactive|].
  split; [by rewrite Hfinal|].
  split; [unfold context_mode; by rewrite Hactive, Hfinal|].
  by rewrite put_mode_doc.
Qed.

Lemma write_failure_discarded_witness :
  let w := Scene.pending (VBones [Scene.b1]) Scene.other_posing in
  let r := apply_edit_bones failing_write 1 w in
  outcome_of r = Ok tt /\
  filter is_log (trace_of r) = [] /\
  trace_of r
  = [EvCacheGet "uuid-rig"; EvCall (CResolve "uuid-ob-rig" 1)]
      ++ baseline_trace w
      ++ [EvSetActive (Some 1); EvModeSet (Some 1) EDIT;
          EvCall (CWriteAttribute (Some Scene.rig) "edit_bones" (VBones [Scene.b1]));
          EvCacheDel "uuid-rig"; EvModeSet (Some 1) OBJECT] /\
  active (world_of r) = Some 1 /\
  ob_mode <$> objects (world_of r) !! 1 = Some OBJECT /\
  context_mode (world_of r) = CONTEXT_OBJECT /\
  doc (world_of r) = doc (write_world 1 w).
Proof.
  intros w.
  apply (write_failure_discarded failing_write w w (write_world 1 w)
           1 (mkObject "uuid-ob-rig" (Some Scene.rig) OBJECT) Scene.rig
           (VBones [Scene.b1]) 0 (OtherException "boom"));
    first [reflexivity | by repeat split].
Defined.

(** C4, as stated, fails: in this run the write of [edit_bones] raises and
    [apply_edit_bones] produces no log record. *)
Lemma write_failure_not_logged :
  let w := Scene.pending (VBones [Scene.b1]) Scene.owner_active in
  (write_attribute failing_write (Some Scene.rig) "edit_bones" (VBones [Scene.b1])
     (write_world 1 w)).2 = Raise (OtherException "boom") /\
  EvCall (CWriteAttribute (Some Scene.rig) "edit_bones" (VBones [Scene.b1]))
    ∈ trace_of (apply_edit_bones failing_write 1 w) /\
  filter is_log (trace_of (apply_edit_bones failing_write 1 w)) = [].
Proof.
  split; [reflexivity|]. split; [|vm_compute; reflexivity].
  apply (bool_decide_unpack _). vm_compute. reflexivity.
Qed.

(** ** The life of an entry of [_edit_bones_map] *)

Section Removal.
Context (X : Externals).

Lemma save_items_dels (d : Datablock) (items : list (string * Value)) :
  forall w, filter is_del (trace_of (save_items X d items w)) = [].
Proof.
  induction items as [|[k v] rest IH]; intros w; [reflexivity|].
  simpl. unfold bind at 1.
  destruct (bool_decide (k <> "edit_bones")).
  - unfold call. destruct (write_attribute X (Some d) k v w) as [w1 [[]|e]]; [|reflexivity].
    specialize (IH w1). destruct (save_items X d rest w1) as [[t2 w2] o2]. exact IH.
  - unfold_monad. simpl.
    match goal with |- context [save_items X d rest ?w1] => specialize (IH w1);
      destruct (save_items X d rest w1) as [[t2 w2] o2] end.
    exact IH.
Qed.

Lemma save_dels (self : Proxy) (datablock : Datablock) (w : World) :
  filter is_del (trace_of (_save X self datablock w)) = [].
Proof.
  unfold _save. unfold bind at 1. unfold call at 1.
  destruct (_pre_save X self datablock w) as [w0 [[d|]|e]]; [|reflexivity|reflexivity].
  unfold bind at 1 2, with_cm, call. unfold bind at 1.
  destruct (enter_datablock X self d w0) as [w2 [[]|e]]; [|reflexivity].
  pose proof (save_items_dels d (_data self) w2) as Hitems.
  destruct (save_items X d (_data self) w2) as [[t3 w3] o3].
  unfold trace_of in *. cbn [fst snd] in Hitems.
  destruct (exit_datablock X self d w3) as [w4 [[]|e]].
  - destruct o3 as [[]|e]; cbn [fst snd].
    + destruct (custom_properties_save X self d w4) as [w5 [[]|e]]; unfold ret;
        cbn [fst snd]; rewrite !filter_app, Hitems; reflexivity.
    + rewrite !filter_app, Hitems; reflexivity.
  - cbn [fst snd]. rewrite !filter_app, Hitems; reflexivity.
Qed.

(** C3, as the code has it.  An entry of [_edit_bones_map] is removed by
    [apply_edit_bones] once the write has returned or has raised an
    [Exception], which the handler swallows before the [del].  The entry
    stays when it is an empty sequence, and when the write raises something
    that is no [Exception] (a [KeyboardInterrupt]), which reaches the caller
    before the [del].  [_save] never deletes from [_edit_bones_map]. *)
Theorem entry_removed_by_write_attempt (w : World) (obj : nat) (ob : Object)
    (d : Datablock) (v : Value) :
  objects w !! obj = Some ob ->
  ob_data ob = Some d ->
  db_kind d = Armature ->
  _edit_bones_map w !! db_mixer_uuid d = Some v ->
  let r := apply_edit_bones X obj w in
  (py_len v = inr 0 ->
   outcome_of r = Ok tt /\ _edit_bones_map (world_of r) !! db_mixer_uuid d = Some v)
  /\ (forall n w1 w3 o,
        py_len v = inr (S n) ->
        resolve X (ob_mixer_uuid ob) obj w = (w1, Ok tt) ->
        same_frame w w1 ->
        write_attribute X (Some d) "edit_bones" v (write_world obj w1) = (w3, o) ->
        same_frame (write_world obj w1) w3 ->
        (forall e, o = Raise e -> is_Exception e = true) ->
        outcome_of r = Ok tt /\ _edit_bones_map (world_of r) !! db_mixer_uuid d = None)
  /\ (forall n w1 w3 e,
        py_len v = inr (S n) ->
        resolve X (ob_mixer_uuid ob) obj w = (w1, Ok tt) ->
        same_frame w w1 ->
        write_attribute X (Some d) "edit_bones" v (write_world obj w1) = (w3, Raise e) ->
        same_frame (write_world obj w1) w3 ->
        is_Exception e = false ->
        outcome_of r = Raise e /\
        filter is_del (trace_of r) = [] /\
        _edit_bones_map (world_of r) !! db_mixer_uuid d = Some v)
  /\ (forall self datablock w0, filter is_del (trace_of (_save X self datablock w0)) = []).
Proof.
  intros Hob Hdata Hkind Hentry r. subst r. split; [|split; [|split]].
  - intros Hlen. by rewrite (apply_edit_bones_empty_run X w obj ob d v).
  - intros n w1 w3 o Hlen Hres Hf1 Hwrite Hf3 Hexn.
    rewrite (apply_edit_bones_commit X w w1 w3 obj ob d v n o); try done.
    split; [done|]. unfold world_of. cbn [fst snd].
    rewrite put_mode_map. simpl. apply lookup_delete_eq.
  - intros n w1 w3 e Hlen Hres (Hobs1 & Hact1 & Hmap1) Hwrite (Hobs3 & Hact3 & Hmap3) Hexn.
    rewrite (apply_edit_bones_interrupted_run X w w1 w3 obj ob d v n e); try done.
    unfold outcome_of, trace_of, world_of. cbn [fst snd].
    split; [done|]. split.
    + rewrite !filter_app. unfold baseline_trace. by case_bool_decide.
    + by rewrite Hmap3, write_world_map, Hmap1.
  - apply save_dels.
Qed.

End Removal.

Lemma entry_removed_by_write_attempt_witness :
  let w := Scene.pending (VBones [Scene.b1]) Scene.owner_active in
  (let r := apply_edit_bones failing_write 1 w in
   outcome_of r = Ok tt /\ _edit_bones_map (world_of r) !! "uuid-rig" = None) /\
  (let r := apply_edit_bones interrupted_write 1 w in
   outcome_of r = Raise KeyboardInterrupt /\
   filter is_del (trace_of r) = [] /\
   _edit_bones_map (world_of r) !! "uuid-rig" = Some (VBones [Scene.b1])).
Proof.
  intros w. split.
  - intros r.
    destruct (entry_removed_by_write_attempt failing_write w 1
                (mkObject "uuid-ob-rig" (Some Scene.rig) OBJECT) Scene.rig (VBones [Scene.b1]))
      as (_ & Hremoved & _); [reflexivity ..|].
    apply (Hremoved 0 w (write_world 1 w) (Raise (OtherException "boom")));
      first [reflexivity | by repeat split | by intros e [= <-]].
  - intros r.
    destruct (entry_removed_by_write_attempt interrupted_write w 1
                (mkObject "uuid-ob-rig" (Some Scene.rig) OBJECT) Scene.rig (VBones [Scene.b1]))
      as (_ & _ & Hkept & _); [reflexivity ..|].
    apply (Hkept 0 w (write_world 1 w) KeyboardInterrupt);
      first [reflexivity | by repeat split].
Defined.

(** C3, as stated, fails: in this run the write of [edit_bones] raises, so
    nothing was committed, and the entry is gone all the same. *)
Lemma entry_removed_after_failed_write :
  let w := Scene.pending (VBones [Scene.b1]) Scene.owner_active in
  let r := apply_edit_bones failing_write 1 w in
  _edit_bones_map w !! "uuid-rig" = Some (VBones [Scene.b1]) /\
  (write_attribute failing_write (Some Scene.rig) "edit_bones" (VBones [Scene.b1])
     (write_world 1 w)).2 = Raise (OtherException "boom") /\
  live_edit_bones <$> doc (world_of r) !! "uuid-rig" = Some [Scene.b1; Scene.b2] /\
  _edit_bones_map (world_of r) !! "uuid-rig" = None.
Proof. vm_compute. repeat split. Qed.

(** ** [load] *)

(** C2, as the code has it.  When no object references the datablock,
    [load] returns the proxy as it is, without an error: nothing is captured,
    no collaborator is called and the world is untouched. *)
Theorem load_without_owner (X : Externals) (self : Proxy) (datablock : Datablock) (w : World) :
  find_armature_parent_object w datablock = None ->
  load X self datablock w = ([], w, Ok self).
Proof. intros Hfind. unfold load. unfold_monad. by rewrite Hfind. Qed.

Lemma load_without_owner_witness :
  load GenericProxy.externals Scene.empty_proxy Scene.rig Scene.no_owner
  = ([], Scene.no_owner, Ok Scene.empty_proxy).
Proof.
  apply (load_without_owner GenericProxy.externals Scene.empty_proxy Scene.rig Scene.no_owner).
  reflexivity.
Defined.

(** C2, as stated, fails: no object references [rig], whose document
    attributes hold ["name"]; the generic load would capture it, but the
    proxy returned by [load] holds no ["name"]. *)
Lemma load_without_owner_captures_nothing :
  let r := load GenericProxy.externals Scene.empty_proxy Scene.rig Scene.no_owner in
  find_armature_parent_object Scene.no_owner Scene.rig = None /\
  attrs <$> doc Scene.no_owner !! "uuid-rig" = Some [("name", VStr "rig")] /\
  (GenericProxy.load Scene.empty_proxy Scene.rig Scene.no_owner).2
    = Ok (mkProxy [("name", VStr "rig")]) /\
  outcome_of r = Ok Scene.empty_proxy /\
  dict_get "name" (_data Scene.empty_proxy) = None.
Proof. vm_compute. repeat split. Qed.

(** C5 on the code.  Object 0 is active and in [POSE] mode, object 1 owns
    [rig] and is in [OBJECT] mode.  [load] returns normally and captures the
    live bones, but it restores the mode recorded from the context (the mode
    of the active object), not the mode of the owner: the owner ends up in
    [POSE] mode. *)
Theorem load_restores_context_mode :
  let w := Scene.other_posing in
  let r := load GenericProxy.externals Scene.empty_proxy Scene.rig w in
  find_armature_parent_object w Scene.rig = Some 1 /\
  ob_mode <$> objects w !! 1 = Some OBJECT /\
  live_edit_bones <$> doc w !! "uuid-rig" = Some [Scene.b1; Scene.b2] /\
  (exists p, outcome_of r = Ok p /\
             dict_get "edit_bones" (_data p) = Some (VBones [Scene.b1; Scene.b2])) /\
  trace_of r = [EvModeSet (Some 1) EDIT; EvCall (CBaseLoad Scene.rig);
                EvModeSet (Some 1) POSE] /\
  ob_mode <$> objects (world_of r) !! 1 = Some POSE.
Proof.
  intros w r. repeat split; try (vm_compute; reflexivity).
  eexists. split; vm_compute; reflexivity.
Qed.

(** ** The mode bracket of [_diff] and [apply] *)

Lemma diff_bracket (X : Externals) (self : Proxy) (d : Datablock) (key : string) (diff : Proxy) :
  _diff X self d key diff
  = edit_bracket d (call (CBaseDiff d key) (base_diff X self d key diff)).
Proof. reflexivity. Qed.

Lemma apply_bracket (X : Externals) (self : Proxy) (d : Datablock) (s : string)
    (delta : Delta) (tb : bool) :
  apply X self d (KStr s) delta tb
  = edit_bracket d (call (CBaseApply d (KStr s) delta tb)
                         (base_apply X self d (KStr s) delta tb)).
Proof. reflexivity. Qed.

Lemma find_from_lookup (obs : list Object) (d : Datablock) :
  forall i o, find_from i obs d = Some o ->
              exists oo, i <= o /\ obs !! (o - i) = Some oo /\ ob_data oo = Some d.
Proof.
  induction obs as [|ob rest IH]; intros i o Hfind; simpl in Hfind; [discriminate|].
  case_bool_decide as Hdata.
  - injection Hfind as <-. exists ob. rewrite Nat.sub_diag. auto.
  - apply IH in Hfind as (oo & Hle & Hlook & Hd). exists oo.
    split; [lia|]. split; [|done].
    replace (o - i) with (S (o - S i)) by lia. done.
Qed.

Lemma find_lookup (w : World) (d : Datablock) (o : nat) :
  find_armature_parent_object w d = Some o ->
  exists oo, objects w !! o = Some oo /\ ob_data oo = Some d.
Proof.
  intros Hfind. apply find_from_lookup in Hfind as (oo & _ & Hlook & Hd).
  rewrite Nat.sub_0_r in Hlook. eauto.
Qed.

Lemma World_eq (w w' : World) :
  objects w = objects w' -> active w = active w' -> windows w = windows w' ->
  doc w = doc w' -> _edit_bones_map w = _edit_bones_map w' -> w = w'.
Proof. destruct w, w'. simpl. by intros -> -> -> -> ->. Qed.

Lemma with_mode_same (ob : Object) : with_mode (ob_mode ob) ob = ob.
Proof. by destruct ob. Qed.

Lemma with_mode_twice (m m' : Mode) (ob : Object) :
  with_mode m (with_mode m' ob) = with_mode m ob.
Proof. reflexivity. Qed.

Lemma mode_of_run (i : nat) (w : World) (ob : Object) :
  objects w !! i = Some ob -> mode_of (Some i) w = ([], w, Ok (ob_mode ob)).
Proof. intros Hi. unfold_monad. by rewrite Hi. Qed.

(** Leaving the bracket from [wb], whose objects and selection are those of
    the world the delegated call started in, gives back the objects and the
    selection of [w]. *)
Lemma leave_bracket (w wb : World) (a o : nat) (oa oo : Object) :
  objects w !! a = Some oa ->
  objects w !! o = Some oo ->
  objects wb = objects (edit_world o w) ->
  put_mode a (ob_mode oa) (set_active (Some a) (put_mode o (ob_mode oo) wb))
  = set_active (Some a) (set_objects (objects w) wb).
Proof.
  intros Ha Ho Hobs. apply World_eq.
  - apply list_eq. intros j. rewrite put_mode_lookup. simpl.
    rewrite put_mode_lookup, Hobs. unfold edit_world. rewrite put_mode_lookup. simpl.
    destruct (decide (o = j)) as [Hoj|Hoj]; destruct (decide (a = j)) as [Haj|Haj];
      rewrite ?bool_decide_eq_true_2, ?bool_decide_eq_false_2 by done; subst.
    all: rewrite ?bool_decide_eq_true_2 by done.
    all: destruct (objects w !! j) as [ob|]; simplify_eq; simpl; try done.
    all: f_equal; by match goal with |- _ = ?y => destruct y end.
  - by rewrite put_mode_active.
  - rewrite put_mode_windows. simpl. by rewrite put_mode_windows.
  - rewrite put_mode_doc. simpl. by rewrite put_mode_doc.
  - rewrite put_mode_map. simpl. by rewrite put_mode_map.
Qed.

Section Bracket.
Context {A : Type} (d : Datablock) (body : M A).
Context (w : World) (a o : nat) (oa oo : Object).
Hypothesis (Hactive : active w = Some a).
Hypothesis (Ha : objects w !! a = Some oa).
Hypothesis (Hfind : find_armature_parent_object w d = Some o).
Hypothesis (Ho : objects w !! o = Some oo).

Ltac enter_bracket :=
  eapply run_bind; [reflexivity|]; cbv beta zeta; rewrite Hactive, Hfind;
  eapply run_bind; [by apply (mode_of_run a w oa)|]; cbv beta;
  eapply run_bind; [reflexivity|]; cbv beta;
  eapply run_bind; [by apply (mode_of_run o _ oo)|]; cbv beta;
  eapply run_bind; [by apply (mode_set_run o EDIT _ oo)|]; cbv beta;
  fold (edit_world o w).

Lemma bracket_raise (tb : list Event) (wb : World) (e : Exn) :
  body (edit_world o w) = (tb, wb, Raise e) ->
  edit_bracket d body w
  = ([EvSetActive (Some o); EvModeSet (Some o) EDIT] ++ tb, wb, Raise e).
Proof using Hactive Ha Hfind Ho.
  intros Hbody. etrans.
  { unfold edit_bracket. enter_bracket. by apply run_bind_raise. }
  reflexivity.
Qed.

Lemma bracket_ok (tb : list Event) (wb : World) (res : A) :
  body (edit_world o w) = (tb, wb, Ok res) ->
  objects wb = objects (edit_world o w) ->
  active wb = active (edit_world o w) ->
  edit_bracket d body w
  = ([EvSetActive (Some o); EvModeSet (Some o) EDIT] ++ tb
       ++ [EvModeSet (Some o) (ob_mode oo); EvSetActive (Some a);
           EvModeSet (Some a) (ob_mode oa)],
     restored w wb, Ok res).
Proof using Hactive Ha Hfind Ho.
  intros Hbody Hobs Hact.
  assert (objects wb !! o = Some (with_mode EDIT oo)) as Hwo.
  { rewrite Hobs. unfold edit_world. rewrite put_mode_lookup. simpl. rewrite Ho. simpl.
    by rewrite bool_decide_eq_true_2. }
  assert (active wb = Some o) as Hwa.
  { rewrite Hact. unfold edit_world. by rewrite put_mode_active. }
  assert (exists oa', objects (put_mode o (ob_mode oo) wb) !! a = Some oa') as [oa' Hoa'].
  { rewrite put_mode_lookup, Hobs. unfold edit_world. rewrite put_mode_lookup. simpl.
    rewrite Ha. simpl. eauto. }
  etrans.
  { unfold edit_bracket. enter_bracket.
    eapply run_bind; [exact Hbody|]. cbv beta.
    eapply run_bind; [by apply (mode_set_run o _ wb (with_mode EDIT oo))|]. cbv beta.
    eapply run_bind; [reflexivity|]. cbv beta.
    eapply run_bind; [by apply (mode_set_run a _ _ oa')|]. cbv beta.
    reflexivity. }
  unfold restored. rewrite Hactive.
  rewrite <- (leave_bracket w wb a o oa oo Ha Ho Hobs).
  reflexivity.
Qed.

End Bracket.

Section LoadBracket.
Context (X : Externals) (self : Proxy) (d : Datablock).
Context (w : World) (o : nat) (oo : Object) (ctx : Ctx).
Hypothesis (Hfind : find_armature_parent_object w d = Some o).
Hypothesis (Ho : objects w !! o = Some oo).
Hypothesis (Hctx : override_context w = Some ctx).

Lemma override_context_mode : ctx_mode ctx = context_mode w.
Proof using Hctx.
  unfold override_context in Hctx.
  destruct (first_view_3d_window 0 (windows w)) as [[i win]|]; [|discriminate].
  by injection Hctx as <-.
Qed.

Lemma load_raise (wb : World) (e : Exn) :
  base_load X self d (put_mode o EDIT w) = (wb, Raise e) ->
  load X self d w = ([EvModeSet (Some o) EDIT; EvCall (CBaseLoad d)], wb, Raise e).
Proof using Hfind Ho Hctx.
  intros Hbody. etrans.
  { unfold load. eapply run_bind; [reflexivity|]. cbv beta. rewrite Hfind, Hctx.
    cbv zeta. cbn [ctx_active_object ctx_mode].
    eapply run_bind; [by apply (mode_set_on_run o EDIT w oo)|]. cbv beta.
    apply run_bind_raise. unfold call. by rewrite Hbody. }
  reflexivity.
Qed.

Lemma load_ok (wb : World) (p : Proxy) (m : Mode) :
  base_load X self d (put_mode o EDIT w) = (wb, Ok p) ->
  objects wb = objects (put_mode o EDIT w) ->
  operator_mode (context_mode w) = Some m ->
  load X self d w
  = ([EvModeSet (Some o) EDIT; EvCall (CBaseLoad d); EvModeSet (Some o) m],
     put_mode o m wb, Ok p).
Proof using Hfind Ho Hctx.
  intros Hbody Hobs Hname.
  assert (objects wb !! o = Some (with_mode EDIT oo)) as Hwo.
  { rewrite Hobs, put_mode_lookup, Ho. simpl. by rewrite bool_decide_eq_true_2. }
  etrans.
  { unfold load. eapply run_bind; [reflexivity|]. cbv beta. rewrite Hfind, Hctx.
    cbv zeta. cbn [ctx_active_object ctx_mode]. rewrite override_context_mode.
    eapply run_bind; [by apply (mode_set_on_run o EDIT w oo)|]. cbv beta.
    eapply run_bind; [by (unfold call; rewrite Hbody)|]. cbv beta.
    unfold mode_set_named. rewrite Hname.
    eapply run_bind; [by apply (mode_set_on_run o _ wb (with_mode EDIT oo))|]. cbv beta.
    reflexivity. }
  reflexivity.
Qed.

Lemma load_refused (wb : World) (p : Proxy) :
  base_load X self d (put_mode o EDIT w) = (wb, Ok p) ->
  operator_mode (context_mode w) = None ->
  load X self d w
  = ([EvModeSet (Some o) EDIT; EvCall (CBaseLoad d)], wb, Raise TypeError).
Proof using Hfind Ho Hctx.
  intros Hbody Hname.
  etrans.
  { unfold load. eapply run_bind; [reflexivity|]. cbv beta. rewrite Hfind, Hctx.
    cbv zeta. cbn [ctx_active_object ctx_mode]. rewrite override_context_mode.
    eapply run_bind; [by apply (mode_set_on_run o EDIT w oo)|]. cbv beta.
    eapply run_bind; [by (unfold call; rewrite Hbody)|]. cbv beta.
    unfold mode_set_named. rewrite Hname.
    by apply run_bind_raise. }
  reflexivity.
Qed.

End LoadBracket.

(** Without a 3D view [override_context] returns [None], and [load] raises
    at [ctx["active_object"] = obj] before anything is captured. *)
Lemma load_without_view_3d (X : Externals) (self : Proxy) (d : Datablock) (w : World)
    (o : nat) :
  find_armature_parent_object w d = Some o ->
  override_context w = None ->
  load X self d w = ([], w, Raise TypeError).
Proof. intros Hfind Hctx. unfold load. unfold_monad. by rewrite Hfind, Hctx. Qed.

(** When the mode of the context names the mode of the owner (the owner is
    the active object and not in edit mode, say), [load] does leave the owner
    in the mode it was in. *)
Lemma load_keeps_owner_mode (X : Externals) (self p : Proxy) (d : Datablock)
    (w wb : World) (o : nat) (oo : Object) (ctx : Ctx) :
  find_armature_parent_object w d = Some o ->
  objects w !! o = Some oo ->
  override_context w = Some ctx ->
  base_load X self d (put_mode o EDIT w) = (wb, Ok p) ->
  objects wb = objects (put_mode o EDIT w) ->
  operator_mode (context_mode w) = Some (ob_mode oo) ->
  outcome_of (load X self d w) = Ok p /\
  objects (world_of (load X self d w)) = objects w.
Proof.
  intros Hfind Ho Hctx Hbody Hobs Hmode.
  rewrite (load_ok X self d w o oo ctx Hfind Ho Hctx wb p (ob_mode oo) Hbody Hobs Hmode).
  split; [done|]. unfold world_of. cbn [fst snd].
  apply list_eq. intros j. rewrite put_mode_lookup, Hobs, put_mode_lookup.
  destruct (decide (o = j)) as [<-|Hne].
  - rewrite Ho. simpl. rewrite bool_decide_eq_true_2 by done. f_equal. by destruct oo.
  - destruct (objects w !! j) as [ob|]; [|done]. simpl.
    by rewrite bool_decide_eq_false_2.
Qed.

(** C1, as the code has it.  [load], [_diff] and [apply] restore nothing
    when the delegated call raises: the exception reaches the caller at once,
    no mode switch and no selection change follow the call, and the world is
    the one the call left.  When the delegated call of [_diff] or [apply]
    returns (leaving the objects and the selection alone), the modes of the
    objects and the active object are put back to what they were. *)
Theorem bracket_exit_paths (X : Externals) (w : World) (d : Datablock) (o : nat) (oo : Object) :
  find_armature_parent_object w d = Some o ->
  objects w !! o = Some oo ->
  (forall self ctx wb e,
     override_context w = Some ctx ->
     base_load X self d (put_mode o EDIT w) = (wb, Raise e) ->
     load X self d w = ([EvModeSet (Some o) EDIT; EvCall (CBaseLoad d)], wb, Raise e))
  /\ (forall a oa,
        active w = Some a ->
        objects w !! a = Some oa ->
        (forall self key diff wb e,
           base_diff X self d key diff (edit_world o w) = (wb, Raise e) ->
           _diff X self d key diff w
           = ([EvSetActive (Some o); EvModeSet (Some o) EDIT; EvCall (CBaseDiff d key)],
              wb, Raise e))
        /\ (forall self key diff wb res,
              base_diff X self d key diff (edit_world o w) = (wb, Ok res) ->
              objects wb = objects (edit_world o w) ->
              active wb = active (edit_world o w) ->
              _diff X self d key diff w
              = ([EvSetActive (Some o); EvModeSet (Some o) EDIT; EvCall (CBaseDiff d key);
                  EvModeSet (Some o) (ob_mode oo); EvSetActive (Some a);
                  EvModeSet (Some a) (ob_mode oa)],
                 restored w wb, Ok res))
        /\ (forall self s delta tb wb e,
              base_apply X self d (KStr s) delta tb (edit_world o w) = (wb, Raise e) ->
              apply X self d (KStr s) delta tb w
              = ([EvSetActive (Some o); EvModeSet (Some o) EDIT;
                  EvCall (CBaseApply d (KStr s) delta tb)],
                 wb, Raise e))
        /\ (forall self s delta tb wb res,
              base_apply X self d (KStr s) delta tb (edit_world o w) = (wb, Ok res) ->
              objects wb = objects (edit_world o w) ->
              active wb = active (edit_world o w) ->
              apply X self d (KStr s) delta tb w
              = ([EvSetActive (Some o); EvModeSet (Some o) EDIT;
                  EvCall (CBaseApply d (KStr s) delta tb);
                  EvModeSet (Some o) (ob_mode oo); EvSetActive (Some a);
                  EvModeSet (Some a) (ob_mode oa)],
                 restored w wb, Ok res))).
Proof.
  intros Hfind Ho. split.
  - intros self ctx wb e Hctx Hbody. by apply (load_raise X self d w o oo ctx).
  - intros a oa Hactive Ha. repeat split.
    + intros self key diff wb e Hbody. rewrite diff_bracket.
      rewrite (bracket_raise d _ w a o oa oo Hactive Ha Hfind Ho
                 [EvCall (CBaseDiff d key)] wb e); [done|].
      unfold call. by rewrite Hbody.
    + intros self key diff wb res Hbody Hobs Hact. rewrite diff_bracket.
      rewrite (bracket_ok d _ w a o oa oo Hactive Ha Hfind Ho
                 [EvCall (CBaseDiff d key)] wb res); [done| |done|done].
      unfold call. by rewrite Hbody.
    + intros self s delta tb wb e Hbody. rewrite apply_bracket.
      rewrite (bracket_raise d _ w a o oa oo Hactive Ha Hfind Ho
                 [EvCall (CBaseApply d (KStr s) delta tb)] wb e); [done|].
      unfold call. by rewrite Hbody.
    + intros self s delta tb wb res Hbody Hobs Hact. rewrite apply_bracket.
      rewrite (bracket_ok d _ w a o oa oo Hactive Ha Hfind Ho
                 [EvCall (CBaseApply d (KStr s) delta tb)] wb res); [done| |done|done].
      unfold call. by rewrite Hbody.
Qed.

Lemma bracket_exit_paths_witness :
  let w := Scene.other_posing in
  apply failing_apply Scene.empty_proxy Scene.rig (KStr "rig")
        (mkDelta "name" (DeltaUpdate (VStr "r"))) true w
  = ([EvSetActive (Some 1); EvModeSet (Some 1) EDIT;
      EvCall (CBaseApply Scene.rig (KStr "rig") (mkDelta "name" (DeltaUpdate (VStr "r"))) true)],
     edit_world 1 w, Raise (OtherException "boom"))
  /\ _diff GenericProxy.externals Scene.empty_proxy Scene.rig "edit_bones" Scene.empty_proxy w
     = ([EvSetActive (Some 1); EvModeSet (Some 1) EDIT; EvCall (CBaseDiff Scene.rig "edit_bones");
         EvModeSet (Some 1) OBJECT; EvSetActive (Some 0); EvModeSet (Some 0) POSE],
        restored w (edit_world 1 w),
        Ok (Some (mkDelta "edit_bones" (DeltaAddition (VBones [Scene.b1; Scene.b2]))))).
Proof.
  intros w. split.
  - destruct (bracket_exit_paths failing_apply w Scene.rig 1
                (mkObject "uuid-ob-rig" (Some Scene.rig) OBJECT)) as (_ & Hrest);
      [reflexivity|reflexivity|].
    destruct (Hrest 0 (mkObject "uuid-ob-other" (Some Scene.other_rig) POSE))
      as (_ & _ & Hraise & _); [reflexivity|reflexivity|].
    apply Hraise. reflexivity.
  - destruct (bracket_exit_paths GenericProxy.externals w Scene.rig 1
                (mkObject "uuid-ob-rig" (Some Scene.rig) OBJECT)) as (_ & Hrest);
      [reflexivity|reflexivity|].
    destruct (Hrest 0 (mkObject "uuid-ob-other" (Some Scene.other_rig) POSE))
      as (_ & Hok & _); [reflexivity|reflexivity|].
    apply Hok; reflexivity.
Defined.

(** C1, as stated, fails: the base [apply] raises; the exception reaches
    the caller with the owner of [rig] left in [EDIT] mode (it was in
    [OBJECT] mode) and left as the active object (object 0 was active). *)
Lemma failing_apply_leaves_edit_mode :
  let w := Scene.other_posing in
  let r := apply failing_apply Scene.empty_proxy Scene.rig (KStr "rig")
                 (mkDelta "name" (DeltaUpdate (VStr "r"))) true w in
  outcome_of r = Raise (OtherException "boom") /\
  ob_mode <$> objects w !! 1 = Some OBJECT /\
  ob_mode <$> objects (world_of r) !! 1 = Some EDIT /\
  active w = Some 0 /\
  active (world_of r) = Some 1.
Proof. vm_compute. repeat split. Qed.

(** ** Applying a delta twice *)

Lemma dict_set_twice (k : string) (v : Value) (l : list (string * Value)) :
  dict_set k v (dict_set k v l) = dict_set k v l.
Proof.
  induction l as [|[k' v'] rest IH]; simpl.
  - by rewrite bool_decide_eq_true_2.
  - case_bool_decide as Hk; simpl.
    + by rewrite bool_decide_eq_true_2.
    + rewrite bool_decide_eq_false_2 by done. by rewrite IH.
Qed.

Lemma dict_del_twice (k : string) (l : list (string * Value)) :
  dict_del k (dict_del k l) = dict_del k l.
Proof.
  induction l as [|[k' v'] rest IH]; simpl; [done|].
  case_bool_decide as Hk; simpl; [done|].
  rewrite bool_decide_eq_false_2 by done. by rewrite IH.
Qed.

Lemma apply_to_data_twice (delta : Delta) (l : list (string * Value)) :
  GenericProxy.apply_to_data delta (GenericProxy.apply_to_data delta l)
  = GenericProxy.apply_to_data delta l.
Proof.
  unfold GenericProxy.apply_to_data.
  destruct (delta_op delta); auto using dict_set_twice, dict_del_twice.
Qed.

Lemma set_doc_same (w : World) : set_doc (doc w) w = w.
Proof. by destruct w. Qed.

Lemma in_edit_mode_set_doc (dc : gmap string Content) (w : World) (d : Datablock) :
  GenericProxy.in_edit_mode (set_doc dc w) d = GenericProxy.in_edit_mode w d.
Proof. reflexivity. Qed.

(** The generic write touches the contents of the document only, and
    writing the same value again changes nothing. *)
Lemma generic_write_frame (d : option Datablock) (k : string) (v : Value) (w : World) :
  exists dc, (GenericProxy.write_attribute d k v w).1 = set_doc dc w.
Proof.
  unfold GenericProxy.write_attribute.
  repeat case_match; simpl; eauto using eq_sym, set_doc_same.
Qed.

Lemma generic_write_twice (d : option Datablock) (k : string) (v : Value) (w w' : World) :
  GenericProxy.write_attribute d k v w = (w', Ok tt) ->
  GenericProxy.write_attribute d k v w' = (w', Ok tt).
Proof.
  unfold GenericProxy.write_attribute. intros Hrun.
  destruct d as [d|]; [|discriminate].
  destruct (doc w !! db_mixer_uuid d) as [c|] eqn:Hc; [|discriminate].
  case_bool_decide as Hk.
  - destruct v as [| |bs]; try discriminate.
    destruct (GenericProxy.in_edit_mode w d) eqn:Hmode; [|discriminate].
    injection Hrun as <-. rewrite in_edit_mode_set_doc, Hmode. simpl.
    rewrite lookup_insert_eq. simpl. by rewrite insert_insert_eq.
  - injection Hrun as <-. simpl. rewrite lookup_insert_eq. simpl.
    by rewrite dict_set_twice, insert_insert_eq.
Qed.

Lemma generic_remove_frame (d : Datablock) (k : string) (w : World) :
  exists dc, (GenericProxy.remove_attribute d k w).1 = set_doc dc w.
Proof.
  unfold GenericProxy.remove_attribute.
  repeat case_match; simpl; eauto using eq_sym, set_doc_same.
Qed.

Lemma generic_remove_twice (d : Datablock) (k : string) (w w' : World) :
  GenericProxy.remove_attribute d k w = (w', Ok tt) ->
  GenericProxy.remove_attribute d k w' = (w', Ok tt).
Proof.
  unfold GenericProxy.remove_attribute. intros Hrun.
  destruct (doc w !! db_mixer_uuid d) as [c|] eqn:Hc; [|discriminate].
  case_bool_decide as Hk.
  - destruct (GenericProxy.in_edit_mode w d) eqn:Hmode; [|discriminate].
    injection Hrun as <-. rewrite in_edit_mode_set_doc, Hmode. simpl.
    rewrite lookup_insert_eq. simpl. by rewrite insert_insert_eq.
  - injection Hrun as <-. simpl. rewrite lookup_insert_eq. simpl.
    by rewrite dict_del_twice, insert_insert_eq.
Qed.

Lemma generic_apply_frame (self : Proxy) (d : Datablock) (key : Key) (delta : Delta)
    (tb : bool) (w : World) :
  exists dc, (GenericProxy.apply self d key delta tb w).1 = set_doc dc w.
Proof.
  unfold GenericProxy.apply, GenericProxy.apply_to_document.
  destruct tb; [|eauto using eq_sym, set_doc_same].
  destruct (delta_op delta) as [v| |v].
  - destruct (generic_write_frame (Some d) (delta_attr delta) v w) as [dc Hdc].
    exists dc. by destruct (GenericProxy.write_attribute _ _ _ w) as [w' [[]|e]].
  - destruct (generic_remove_frame d (delta_attr delta) w) as [dc Hdc].
    exists dc. by destruct (GenericProxy.remove_attribute _ _ w) as [w' [[]|e]].
  - destruct (generic_write_frame (Some d) (delta_attr delta) v w) as [dc Hdc].
    exists dc. by destruct (GenericProxy.write_attribute _ _ _ w) as [w' [[]|e]].
Qed.

Lemma generic_apply_twice (self p : Proxy) (d : Datablock) (key : Key) (delta : Delta)
    (tb : bool) (w w' : World) :
  GenericProxy.apply self d key delta tb w = (w', Ok p) ->
  GenericProxy.apply p d key delta tb w' = (w', Ok p).
Proof.
  unfold GenericProxy.apply, GenericProxy.apply_to_document. intros Hrun.
  destruct tb.
  - destruct (delta_op delta) as [v| |v].
    + destruct (GenericProxy.write_attribute _ _ _ w) as [w1 [[]|e]] eqn:Hw; [|discriminate].
      injection Hrun as <- <-. rewrite (generic_write_twice _ _ _ _ _ Hw). simpl.
      by rewrite apply_to_data_twice.
    + destruct (GenericProxy.remove_attribute _ _ w) as [w1 [[]|e]] eqn:Hw; [|discriminate].
      injection Hrun as <- <-. rewrite (generic_remove_twice _ _ _ _ Hw). simpl.
      by rewrite apply_to_data_twice.
    + destruct (GenericProxy.write_attribute _ _ _ w) as [w1 [[]|e]] eqn:Hw; [|discriminate].
      injection Hrun as <- <-. rewrite (generic_write_twice _ _ _ _ _ Hw). simpl.
      by rewrite apply_to_data_twice.
  - injection Hrun as <- <-. simpl. by rewrite apply_to_data_twice.
Qed.

(** When the bracket returns normally, an object was active and an owner
    was found. *)
Lemma bracket_ok_inv {A : Type} (d : Datablock) (body : M A) (w : World) (res : A) :
  outcome_of (edit_bracket d body w) = Ok res ->
  exists a oa o oo,
    active w = Some a /\ objects w !! a = Some oa /\
    find_armature_parent_object w d = Some o /\ objects w !! o = Some oo.
Proof.
  intros Hrun.
  destruct (active w) as [a|] eqn:Hactive.
  2:{ unfold edit_bracket in Hrun. unfold_monad. rewrite Hactive in Hrun. discriminate. }
  destruct (objects w !! a) as [oa|] eqn:Ha.
  2:{ unfold edit_bracket in Hrun. unfold_monad. rewrite Hactive, Ha in Hrun. discriminate. }
  destruct (find_armature_parent_object w d) as [o|] eqn:Hfind.
  2:{ unfold edit_bracket in Hrun. unfold_monad. rewrite Hactive, Ha, Hfind in Hrun.
      discriminate. }
  destruct (find_lookup w d o Hfind) as (oo & Ho & _).
  by exists a, oa, o, oo.
Qed.

Lemma restored_set_doc (dc : gmap string Content) (w : World) (o : nat) :
  restored w (set_doc dc (edit_world o w)) = set_doc dc w.
Proof.
  apply World_eq; try reflexivity; unfold restored, edit_world; simpl.
  - by rewrite put_mode_windows.
  - by rewrite put_mode_map.
Qed.

Lemma edit_world_set_doc (dc : gmap string Content) (w : World) (o : nat) :
  edit_world o (set_doc dc w) = set_doc dc (edit_world o w).
Proof.
  unfold edit_world, put_mode. simpl. by destruct (objects w !! o).
Qed.

(** After a first application that returned, a second one returns the same
    proxy and leaves the same world. *)
Lemma apply_twice_after_success (X : Externals) (self p1 : Proxy) (d : Datablock)
    (key : Key) (delta : Delta) (to_blender : bool) (w : World) :
  let X' := with_base_apply GenericProxy.apply X in
  let r1 := apply X' self d key delta to_blender w in
  outcome_of r1 = Ok p1 ->
  let r2 := apply X' p1 d key delta to_blender (world_of r1) in
  outcome_of r2 = Ok p1 /\ world_of r2 = world_of r1.
Proof.
  intros X' r1 Hok r2. subst r1 r2.
  destruct key as [i|s]; [discriminate|].
  rewrite !apply_bracket in *.
  destruct (bracket_ok_inv _ _ _ _ Hok) as (a & oa & o & oo & Hactive & Ha & Hfind & Ho).
  cbn [base_apply X' with_base_apply] in *.
  destruct (generic_apply_frame self d (KStr s) delta to_blender (edit_world o w)) as [dc Hdc].
  destruct (GenericProxy.apply self d (KStr s) delta to_blender (edit_world o w))
    as [wb [p|e]] eqn:Hbody; simpl in Hdc; subst wb.
  2:{ rewrite (bracket_raise d _ w a o oa oo Hactive Ha Hfind Ho
                 [EvCall (CBaseApply d (KStr s) delta to_blender)]
                 (set_doc dc (edit_world o w)) e) in Hok;
        [discriminate|].
      unfold call. by rewrite Hbody. }
  pose proof (bracket_ok d (call (CBaseApply d (KStr s) delta to_blender)
                                 (GenericProxy.apply self d (KStr s) delta to_blender))
                w a o oa oo Hactive Ha Hfind Ho
                [EvCall (CBaseApply d (KStr s) delta to_blender)]
                (set_doc dc (edit_world o w)) p) as Hrun1.
  specialize (Hrun1 ltac:(unfold call; by rewrite Hbody) eq_refl eq_refl).
  rewrite Hrun1 in Hok |- *.
  injection Hok as ->. unfold world_of. cbn [fst snd].
  rewrite restored_set_doc.
  rewrite (bracket_ok d _ (set_doc dc w) a o oa oo Hactive Ha Hfind Ho
             [EvCall (CBaseApply d (KStr s) delta to_blender)]
             (set_doc dc (edit_world o w)) p1).
  - unfold outcome_of. cbn [fst snd]. split; [done|].
    apply World_eq; try reflexivity; unfold restored, edit_world; simpl.
    + by rewrite put_mode_windows.
    + by rewrite put_mode_map.
  - unfold call. rewrite edit_world_set_doc.
    by rewrite (generic_apply_twice _ _ _ _ _ _ _ _ Hbody).
  - by rewrite edit_world_set_doc.
  - by rewrite edit_world_set_doc.
Qed.

Example apply_twice_on_the_scene :
  let delta := mkDelta "edit_bones" (DeltaUpdate (VBones [Scene.b1])) in
  let r1 := apply GenericProxy.externals Scene.rig_proxy Scene.rig (KStr "rig") delta true
                  Scene.other_posing in
  let p1 := mkProxy [("name", VStr "rig"); ("edit_bones", VBones [Scene.b1]);
                     ("layers", VInt 3)] in
  let r2 := apply GenericProxy.externals p1 Scene.rig (KStr "rig") delta true (world_of r1) in
  live_edit_bones <$> doc (world_of r1) !! "uuid-rig" = Some [Scene.b1] /\
  outcome_of r2 = Ok p1 /\ world_of r2 = world_of r1.
Proof.
  intros delta r1 p1 r2. split; [vm_compute; reflexivity|].
  apply (apply_twice_after_success GenericProxy.externals Scene.rig_proxy p1 Scene.rig
           (KStr "rig") delta true Scene.other_posing).
  vm_compute. reflexivity.
Qed.

Lemma find_from_data (d : Datablock) (l l' : list Object) :
  ob_data <$> l = ob_data <$> l' ->
  forall i, find_from i l d = find_from i l' d.
Proof.
  revert l'. induction l as [|ob rest IH]; intros [|ob' rest'] Hdata i;
    try discriminate; [done|].
  simpl in *. injection Hdata as Hhead Htail. rewrite Hhead.
  case_bool_decide; [done|]. by apply IH.
Qed.

Lemma put_mode_data (i : nat) (m : Mode) (w : World) :
  ob_data <$> objects (put_mode i m w) = ob_data <$> objects w.
Proof.
  unfold put_mode. destruct (objects w !! i) as [ob|] eqn:Hi; [|done]. simpl.
  rewrite list_fmap_insert. apply list_insert_id. by rewrite list_lookup_fmap, Hi.
Qed.

Lemma find_edit_world (o : nat) (w : World) (d : Datablock) :
  find_armature_parent_object (edit_world o w) d = find_armature_parent_object w d.
Proof.
  unfold find_armature_parent_object, edit_world. apply find_from_data.
  by rewrite put_mode_data.
Qed.

Lemma edit_world_twice (o : nat) (w : World) :
  edit_world o (edit_world o w) = edit_world o w.
Proof.
  unfold edit_world. apply World_eq.
  - apply list_eq. intros j. rewrite !put_mode_lookup. simpl. rewrite put_mode_lookup. simpl.
    destruct (objects w !! j) as [ob|]; [|done]. simpl. by case_bool_decide.
  - by rewrite !put_mode_active.
  - rewrite !put_mode_windows. simpl. by rewrite put_mode_windows.
  - rewrite !put_mode_doc. simpl. by rewrite put_mode_doc.
  - rewrite !put_mode_map. simpl. by rewrite put_mode_map.
Qed.

(** The bracket when it fails before the delegated call. *)
Lemma bracket_no_active {A : Type} (d : Datablock) (body : M A) (w : World) :
  active w = None -> edit_bracket d body w = ([], w, Raise AttributeError).
Proof. intros Hactive. unfold edit_bracket. unfold_monad. by rewrite Hactive. Qed.

Lemma bracket_dead_active {A : Type} (d : Datablock) (body : M A) (w : World) (a : nat) :
  active w = Some a -> objects w !! a = None ->
  edit_bracket d body w = ([], w, Raise ReferenceError).
Proof. intros Hactive Ha. unfold edit_bracket. unfold_monad. by rewrite Hactive, Ha. Qed.

Lemma bracket_no_owner {A : Type} (d : Datablock) (body : M A) (w : World) (a : nat)
    (oa : Object) :
  active w = Some a -> objects w !! a = Some oa ->
  find_armature_parent_object w d = None ->
  edit_bracket d body w = ([EvSetActive None], set_active None w, Raise AttributeError).
Proof.
  intros Hactive Ha Hfind. unfold edit_bracket. unfold_monad.
  by rewrite Hactive, Ha, Hfind.
Qed.

Lemma generic_apply_raise (self : Proxy) (d : Datablock) (key : Key) (delta : Delta)
    (tb : bool) (w w' : World) (e : Exn) :
  GenericProxy.apply self d key delta tb w = (w', Raise e) -> w' = w.
Proof.
  unfold GenericProxy.apply, GenericProxy.apply_to_document,
    GenericProxy.write_attribute, GenericProxy.remove_attribute.
  intros Hrun. repeat case_match; simplify_eq; reflexivity.
Qed.

(** C8.  With the generic apply as the specification describes it, applying
    a delta through [apply] a second time, to the proxy and the world the
    first application left, ends with the same proxy and the same world (the
    document, the modes and the selection): the second application changes
    nothing. *)
Theorem apply_twice_same_end_state (X : Externals) (self : Proxy) (d : Datablock)
    (key : Key) (delta : Delta) (to_blender : bool) (w : World) :
  let X' := with_base_apply GenericProxy.apply X in
  let r1 := apply X' self d key delta to_blender w in
  let p1 := proxy_after self r1 in
  let r2 := apply X' p1 d key delta to_blender (world_of r1) in
  proxy_after p1 r2 = p1 /\ world_of r2 = world_of r1.
Proof.
  intros X'. cbv zeta.
  destruct (outcome_of (apply X' self d key delta to_blender w)) as [p|e] eqn:Hout.
  { assert (proxy_after self (apply X' self d key delta to_blender w) = p) as Hp
      by (unfold proxy_after; by rewrite Hout).
    destruct (apply_twice_after_success X self p d key delta to_blender w Hout) as [Ho2 Hw2].
    fold X' in Ho2, Hw2. rewrite !Hp. unfold proxy_after. by rewrite Ho2. }
  assert (proxy_after self (apply X' self d key delta to_blender w) = self) as Hp
    by (unfold proxy_after; by rewrite Hout).
  rewrite !Hp. clear Hp. revert Hout.
  destruct key as [i|s]; [done|].
  rewrite !apply_bracket. cbn [base_apply X' with_base_apply].
  set (body := call (CBaseApply d (KStr s) delta to_blender)
                    (GenericProxy.apply self d (KStr s) delta to_blender)).
  intros Hout.
  destruct (active w) as [a|] eqn:Hactive.
  2:{ rewrite (bracket_no_active d body w Hactive). unfold world_of, proxy_after. cbn [fst snd].
      by rewrite (bracket_no_active d body w Hactive). }
  destruct (objects w !! a) as [oa|] eqn:Ha.
  2:{ rewrite (bracket_dead_active d body w a Hactive Ha). unfold world_of, proxy_after.
      cbn [fst snd]. by rewrite (bracket_dead_active d body w a Hactive Ha). }
  destruct (find_armature_parent_object w d) as [o|] eqn:Hfind.
  2:{ rewrite (bracket_no_owner d body w a oa Hactive Ha Hfind). unfold world_of, proxy_after.
      cbn [fst snd]. by rewrite (bracket_no_active d body (set_active None w) eq_refl). }
  destruct (find_lookup w d o Hfind) as (oo & Ho & _).
  destruct (GenericProxy.apply self d (KStr s) delta to_blender (edit_world o w))
    as [wb [p|e']] eqn:Hbody.
  { rewrite (bracket_ok d body w a o oa oo Hactive Ha Hfind Ho
               [EvCall (CBaseApply d (KStr s) delta to_blender)] wb p) in Hout.
    - discriminate.
    - unfold body, call. by rewrite Hbody.
    - destruct (generic_apply_frame self d (KStr s) delta to_blender (edit_world o w))
        as [dc Hdc]. rewrite Hbody in Hdc. simpl in Hdc. by subst wb.
    - destruct (generic_apply_frame self d (KStr s) delta to_blender (edit_world o w))
        as [dc Hdc]. rewrite Hbody in Hdc. simpl in Hdc. by subst wb. }
  apply generic_apply_raise in Hbody as Hwb. subst wb.
  assert (body (edit_world o w)
          = ([EvCall (CBaseApply d (KStr s) delta to_blender)], edit_world o w, Raise e'))
    as Hrun by (unfold body, call; by rewrite Hbody).
  rewrite (bracket_raise d body w a o oa oo Hactive Ha Hfind Ho _ _ _ Hrun).
  unfold world_of, proxy_after, outcome_of. cbn [fst snd].
  assert (objects (edit_world o w) !! o = Some (with_mode EDIT oo)) as Ho'.
  { unfold edit_world. rewrite put_mode_lookup. simpl. rewrite Ho. simpl.
    by rewrite bool_decide_eq_true_2. }
  assert (active (edit_world o w) = Some o) as Hactive'.
  { unfold edit_world. by rewrite put_mode_active. }
  assert (find_armature_parent_object (edit_world o w) d = Some o) as Hfind'.
  { by rewrite find_edit_world. }
  rewrite (bracket_raise d body (edit_world o w) o o _ _ Hactive' Ho' Hfind' Ho'
             [EvCall (CBaseApply d (KStr s) delta to_blender)] (edit_world o w) e').
  - done.
  - by rewrite edit_world_twice.
Qed.

(** * Further properties of the module *)

(** ** [find_armature_parent_object] *)

Lemma find_from_first (obs : list Object) (d : Datablock) :
  forall i o, find_from i obs d = Some o ->
              forall j oj, j < o - i -> obs !! j = Some oj -> ob_data oj <> Some d.
Proof.
  induction obs as [|ob rest IH]; intros i o Hfind j oj Hlt Hj; simpl in Hfind;
    [discriminate|].
  case_bool_decide as Hdata.
  - injection Hfind as <-. lia.
  - destruct j as [|j]; simpl in Hj.
    + by injection Hj as <-.
    + apply (IH (S i) o Hfind j oj); [lia|done].
Qed.

Lemma find_from_none (obs : list Object) (d : Datablock) :
  forall i, find_from i obs d = None <->
            (forall j oj, obs !! j = Some oj -> ob_data oj <> Some d).
Proof.
  induction obs as [|ob rest IH]; intros i; simpl.
  - split; [intros _ j oj Hj; by rewrite lookup_nil in Hj|done].
  - case_bool_decide as Hdata.
    + split; [discriminate|]. intros Hall. by destruct (Hall 0 ob eq_refl).
    + rewrite IH. split.
      * intros Hall [|j] oj Hj; simpl in Hj; [by injection Hj as <-|eauto].
      * intros Hall j oj Hj. by apply (Hall (S j)).
Qed.

(** X1. The object returned by [find_armature_parent_object] is an entry of
    [bpy.data.objects] whose data is the datablock, and it is the first one:
    no object before it references the datablock. *)
Theorem find_returns_first_owner (w : World) (d : Datablock) (o : nat) :
  find_armature_parent_object w d = Some o ->
  exists oo,
    objects w !! o = Some oo /\ ob_data oo = Some d /\
    (forall j oj, j < o -> objects w !! j = Some oj -> ob_data oj <> Some d).
Proof.
  intros Hfind. destruct (find_lookup w d o Hfind) as (oo & Ho & Hdata).
  exists oo. split; [done|]. split; [done|].
  intros j oj Hlt Hj. apply (find_from_first (objects w) d 0 o Hfind j oj); [lia|done].
Qed.

Lemma find_returns_first_owner_witness :
  exists oo,
    objects Scene.other_posing !! 1 = Some oo /\ ob_data oo = Some Scene.rig /\
    (forall j oj, j < 1 -> objects Scene.other_posing !! j = Some oj ->
                  ob_data oj <> Some Scene.rig).
Proof.
  apply (find_returns_first_owner Scene.other_posing Scene.rig 1). reflexivity.
Defined.

(** X2. [find_armature_parent_object] returns [None] exactly when no object
    of [bpy.data.objects] references the datablock. *)
Theorem find_none_iff_no_owner (w : World) (d : Datablock) :
  find_armature_parent_object w d = None <->
  (forall j oj, objects w !! j = Some oj -> ob_data oj <> Some d).
Proof. apply find_from_none. Qed.

(** ** [override_context] *)

Lemma first_view_3d_window_some (wins : list Window) :
  forall i k win,
    first_view_3d_window i wins = Some (k, win) ->
    i <= k /\ wins !! (k - i) = Some win /\ "VIEW_3D" ∈ screen_areas win /\
    (forall j wj, j < k - i -> wins !! j = Some wj -> "VIEW_3D" ∉ screen_areas wj).
Proof.
  induction wins as [|win0 rest IH]; intros i k win Hfirst; simpl in Hfirst;
    [discriminate|].
  unfold has_view_3d in Hfirst. case_bool_decide as Hview.
  - injection Hfirst as <- <-. rewrite Nat.sub_diag. repeat split; [lia|done|].
    intros j wj Hlt. lia.
  - apply IH in Hfirst as (Hle & Hk & Hin & Hbefore).
    split; [lia|]. replace (k - i) with (S (k - S i)) by lia.
    split; [done|]. split; [done|].
    intros [|j] wj Hlt Hj; simpl in Hj.
    + by injection Hj as <-.
    + apply (Hbefore j wj); [lia|done].
Qed.

Lemma first_view_3d_window_none (wins : list Window) :
  forall i, first_view_3d_window i wins = None <->
            (forall win, win ∈ wins -> "VIEW_3D" ∉ screen_areas win).
Proof.
  induction wins as [|win0 rest IH]; intros i; simpl.
  - split; [intros _ win Hin; by apply elem_of_nil in Hin|done].
  - unfold has_view_3d. case_bool_decide as Hview.
    + split; [discriminate|]. intros Hall. destruct (Hall win0); [left|done].
    + rewrite IH. split.
      * intros Hall win Hin. apply elem_of_cons in Hin as [->|Hin]; eauto.
      * intros Hall win Hin. apply Hall. by right.
Qed.

(** X3. [override_context] returns [None] exactly when no window has an
    area of type ["VIEW_3D"]. *)
Theorem override_context_none_iff (w : World) :
  override_context w = None <->
  (forall win, win ∈ windows w -> "VIEW_3D" ∉ screen_areas win).
Proof.
  unfold override_context. rewrite <- (first_view_3d_window_none (windows w) 0).
  destruct (first_view_3d_window 0 (windows w)) as [[i win]|]; [split; discriminate|done].
Qed.

(** X4. The context returned by [override_context] names the first window
    that has a ["VIEW_3D"] area, its screen, and as area the first area of
    that screen (whatever its type); the active object and the mode are
    those of the global context. *)
Theorem override_context_first_view_3d (w : World) (ctx : Ctx) :
  override_context w = Some ctx ->
  exists i win first_area,
    windows w !! i = Some win /\
    "VIEW_3D" ∈ screen_areas win /\
    (forall j wj, j < i -> windows w !! j = Some wj -> "VIEW_3D" ∉ screen_areas wj) /\
    screen_areas win !! 0 = Some first_area /\
    ctx = mkCtx (Some i) (Some i) (Some first_area) (active w) (context_mode w).
Proof.
  unfold override_context. intros Hctx.
  destruct (first_view_3d_window 0 (windows w)) as [[i win]|] eqn:Hfirst; [|discriminate].
  injection Hctx as <-.
  apply first_view_3d_window_some in Hfirst as (_ & Hi & Hin & Hbefore).
  rewrite Nat.sub_0_r in Hi, Hbefore.
  destruct (screen_areas win) as [|first_area rest] eqn:Hareas.
  { by apply elem_of_nil in Hin. }
  exists i, win, first_area. rewrite Hareas. by repeat split.
Qed.

Lemma override_context_first_view_3d_witness :
  exists i win first_area,
    windows Scene.owner_active !! i = Some win /\
    "VIEW_3D" ∈ screen_areas win /\
    (forall j wj, j < i -> windows Scene.owner_active !! j = Some wj ->
                  "VIEW_3D" ∉ screen_areas wj) /\
    screen_areas win !! 0 = Some first_area /\
    mkCtx (Some 0) (Some 0) (Some "PROPERTIES") (Some 1) CONTEXT_OBJECT
    = mkCtx (Some i) (Some i) (Some first_area) (active Scene.owner_active)
            (context_mode Scene.owner_active).
Proof.
  apply (override_context_first_view_3d Scene.owner_active
           (mkCtx (Some 0) (Some 0) (Some "PROPERTIES") (Some 1) CONTEXT_OBJECT)).
  reflexivity.
Defined.

(** ** [load], with an owner *)

(** X5. When an object references the datablock but no window has a
    ["VIEW_3D"] area, [load] raises [TypeError] (the assignment into the
    [None] returned by [override_context]): nothing is captured, no mode is
    switched, the world is untouched. *)
Theorem load_raises_without_view_3d (X : Externals) (self : Proxy) (d : Datablock)
    (w : World) (o : nat) :
  find_armature_parent_object w d = Some o ->
  (forall win, win ∈ windows w -> "VIEW_3D" ∉ screen_areas win) ->
  load X self d w = ([], w, Raise TypeError).
Proof.
  intros Hfind Hwins. apply (load_without_view_3d X self d w o Hfind).
  unfold override_context.
  by rewrite (proj2 (first_view_3d_window_none (windows w) 0) Hwins).
Qed.

Lemma load_raises_without_view_3d_witness :
  load GenericProxy.externals Scene.empty_proxy Scene.rig headless
  = ([], headless, Raise TypeError).
Proof.
  apply (load_raises_without_view_3d GenericProxy.externals Scene.empty_proxy Scene.rig
           headless 1); [reflexivity|].
  intros win Hin. by apply elem_of_nil in Hin.
Defined.

(** X6. With an owner and a 3D view, the delegated load runs while the
    owner is in [EDIT] mode, and [load] itself never changes the active
    object.  When the delegated load returns, what follows depends on the
    mode the context had at entry.  When [mode_set] accepts its name (the
    context was not in an edit mode), [load] returns the proxy of the
    delegated load, the owner is then in that mode and every other object is
    as the delegated load left it.  When the context was in an edit mode, the
    name is refused: [load] raises [TypeError] after the capture, with the
    owner left in [EDIT] mode. *)
Theorem load_brackets_delegated_load (X : Externals) (self p : Proxy) (d : Datablock)
    (w wb : World) (o : nat) (ctx : Ctx) :
  find_armature_parent_object w d = Some o ->
  override_context w = Some ctx ->
  base_load X self d (put_mode o EDIT w) = (wb, Ok p) ->
  objects wb = objects (put_mode o EDIT w) ->
  let r := load X self d w in
  ob_mode <$> objects (put_mode o EDIT w) !! o = Some EDIT /\
  active (put_mode o EDIT w) = active w /\
  (forall m,
     operator_mode (context_mode w) = Some m ->
     outcome_of r = Ok p /\
     trace_of r = [EvModeSet (Some o) EDIT; EvCall (CBaseLoad d); EvModeSet (Some o) m] /\
     ob_mode <$> objects (world_of r) !! o = Some m /\
     (forall j, j <> o -> objects (world_of r) !! j = objects w !! j) /\
     active (world_of r) = active wb /\
     doc (world_of r) = doc wb) /\
  (operator_mode (context_mode w) = None ->
   outcome_of r = Raise TypeError /\
   trace_of r = [EvModeSet (Some o) EDIT; EvCall (CBaseLoad d)] /\
   world_of r = wb /\
   ob_mode <$> objects (world_of r) !! o = Some EDIT).
Proof.
  intros Hfind Hctx Hbody Hobs r. subst r.
  destruct (find_lookup w d o Hfind) as (oo & Ho & _).
  assert (ob_mode <$> objects (put_mode o EDIT w) !! o = Some EDIT) as Hedit.
  { rewrite put_mode_lookup, Ho. simpl. by rewrite bool_decide_eq_true_2. }
  split; [exact Hedit|]. split; [apply put_mode_active|]. split.
  - intros m Hname.
    rewrite (load_ok X self d w o oo ctx Hfind Ho Hctx wb p m Hbody Hobs Hname).
    unfold outcome_of, trace_of, world_of. cbn [fst snd].
    split; [done|]. split; [done|].
    split. { rewrite put_mode_lookup, Hobs, put_mode_lookup, Ho. simpl.
             by rewrite bool_decide_eq_true_2. }
    split. { intros j Hne. rewrite put_mode_lookup, Hobs, put_mode_lookup.
             rewrite bool_decide_eq_false_2 by done.
             by destruct (objects w !! j). }
    split; [apply put_mode_active|apply put_mode_doc].
  - intros Hname.
    rewrite (load_refused X self d w o oo ctx Hfind Ho Hctx wb p Hbody Hname).
    unfold outcome_of, trace_of, world_of. cbn [fst snd].
    split; [done|]. split; [done|]. split; [done|]. by rewrite Hobs.
Qed.

Lemma load_brackets_delegated_load_witness :
  let captured := mkProxy [("name", VStr "rig"); ("edit_bones", VBones [Scene.b1; Scene.b2])] in
  (let w := Scene.other_posing in
   let r := load GenericProxy.externals Scene.empty_proxy Scene.rig w in
   outcome_of r = Ok captured /\
   trace_of r = [EvModeSet (Some 1) EDIT; EvCall (CBaseLoad Scene.rig);
                 EvModeSet (Some 1) POSE] /\
   ob_mode <$> objects (world_of r) !! 1 = Some POSE /\
   (forall j, j <> 1 -> objects (world_of r) !! j = objects w !! j) /\
   active (world_of r) = active (put_mode 1 EDIT w) /\
   doc (world_of r) = doc (put_mode 1 EDIT w)) /\
  (let w := owner_editing in
   let r := load GenericProxy.externals Scene.empty_proxy Scene.rig w in
   outcome_of r = Raise TypeError /\
   trace_of r = [EvModeSet (Some 1) EDIT; EvCall (CBaseLoad Scene.rig)] /\
   world_of r = put_mode 1 EDIT w /\
   ob_mode <$> objects (world_of r) !! 1 = Some EDIT).
Proof.
  intros captured. split.
  - intros w.
    destruct (load_brackets_delegated_load GenericProxy.externals Scene.empty_proxy
                captured Scene.rig w (put_mode 1 EDIT w) 1
                (mkCtx (Some 0) (Some 0) (Some "PROPERTIES") (Some 0) CONTEXT_POSE))
      as (_ & _ & Haccepted & _); [reflexivity ..|].
    apply (Haccepted POSE). reflexivity.
  - intros w.
    destruct (load_brackets_delegated_load GenericProxy.externals Scene.empty_proxy
                captured Scene.rig w (put_mode 1 EDIT w) 1
                (mkCtx (Some 0) (Some 0) (Some "PROPERTIES") (Some 1) CONTEXT_EDIT_ARMATURE))
      as (_ & _ & _ & Hrefused); [reflexivity ..|].
    apply Hrefused. reflexivity.
Defined.

(** X7. [load] with the owner as the active object.  When the owner is not
    in edit mode, [load] leaves every object in the mode it was in: after a
    delegated load that leaves the objects alone, [bpy.data.objects] is what
    it was before the call.  When the owner is already in [EDIT] mode, the
    context reports ["EDIT_ARMATURE"], which the final [mode_set] refuses:
    [load] raises [TypeError] after the capture and the objects are as the
    delegated load left them. *)
Theorem load_restores_active_owner (X : Externals) (self p : Proxy) (d : Datablock)
    (w wb : World) (o : nat) (oo : Object) (ctx : Ctx) :
  find_armature_parent_object w d = Some o ->
  objects w !! o = Some oo ->
  active w = Some o ->
  override_context w = Some ctx ->
  base_load X self d (put_mode o EDIT w) = (wb, Ok p) ->
  objects wb = objects (put_mode o EDIT w) ->
  (ob_mode oo <> EDIT ->
   outcome_of (load X self d w) = Ok p /\
   objects (world_of (load X self d w)) = objects w) /\
  (ob_mode oo = EDIT ->
   outcome_of (load X self d w) = Raise TypeError /\
   world_of (load X self d w) = wb /\
   objects (world_of (load X self d w)) = objects w).
Proof.
  intros Hfind Ho Hactive Hctx Hbody Hobs.
  assert (context_mode w = context_mode_of oo) as Hcm.
  { unfold context_mode. by rewrite Hactive, Ho. }
  split.
  - intros Hmode.
    apply (load_keeps_owner_mode X self p d w wb o oo ctx); try done.
    rewrite Hcm. unfold context_mode_of. by destruct (ob_mode oo).
  - intros Hmode.
    rewrite (load_refused X self d w o oo ctx Hfind Ho Hctx wb p Hbody).
    2:{ rewrite Hcm. unfold context_mode_of. rewrite Hmode.
        destruct (ob_data oo) as [d0|]; [|done]. by case_bool_decide. }
    unfold outcome_of, world_of. cbn [fst snd]. split; [done|]. split; [done|].
    rewrite Hobs. apply list_eq. intros j. rewrite put_mode_lookup.
    destruct (decide (o = j)) as [<-|Hne].
    + rewrite Ho. simpl. rewrite bool_decide_eq_true_2 by done. f_equal.
      rewrite <- Hmode. by destruct oo.
    + destruct (objects w !! j) as [ob|]; [|done]. simpl.
      by rewrite bool_decide_eq_false_2.
Qed.

Lemma load_restores_active_owner_witness :
  let captured := mkProxy [("name", VStr "rig"); ("edit_bones", VBones [Scene.b1; Scene.b2])] in
  (let r := load GenericProxy.externals Scene.empty_proxy Scene.rig Scene.owner_active in
   outcome_of r = Ok captured /\ objects (world_of r) = objects Scene.owner_active) /\
  (let r := load GenericProxy.externals Scene.empty_proxy Scene.rig owner_editing in
   outcome_of r = Raise TypeError /\
   world_of r = put_mode 1 EDIT owner_editing /\
   objects (world_of r) = objects owner_editing).
Proof.
  intros captured. split.
  - destruct (load_restores_active_owner GenericProxy.externals Scene.empty_proxy
                captured Scene.rig Scene.owner_active (put_mode 1 EDIT Scene.owner_active) 1
                (mkObject "uuid-ob-rig" (Some Scene.rig) OBJECT)
                (mkCtx (Some 0) (Some 0) (Some "PROPERTIES") (Some 1) CONTEXT_OBJECT))
      as (Hrestored & _); [reflexivity ..|].
    by apply Hrestored.
  - destruct (load_restores_active_owner GenericProxy.externals Scene.empty_proxy
                captured Scene.rig owner_editing (put_mode 1 EDIT owner_editing) 1
                (mkObject "uuid-ob-rig" (Some Scene.rig) EDIT)
                (mkCtx (Some 0) (Some 0) (Some "PROPERTIES") (Some 1) CONTEXT_EDIT_ARMATURE))
      as (_ & Hrefused); [reflexivity ..|].
    by apply Hrefused.
Defined.

(** ** [_diff] and [apply]: failures before the delegated call *)

(** X8. With no active object, [_diff] and [apply] raise [AttributeError]
    (reading the mode of [None]) before anything is done: no selection
    change, no mode switch, no delegated call, the world untouched. *)
Theorem bracket_needs_active_object (X : Externals) (self diff : Proxy) (d : Datablock)
    (key s : string) (delta : Delta) (to_blender : bool) (w : World) :
  active w = None ->
  _diff X self d key diff w = ([], w, Raise AttributeError) /\
  apply X self d (KStr s) delta to_blender w = ([], w, Raise AttributeError).
Proof.
  intros Hactive. rewrite diff_bracket, apply_bracket.
  split; by apply bracket_no_active.
Qed.

Lemma bracket_needs_active_object_witness :
  _diff GenericProxy.externals Scene.empty_proxy Scene.rig "edit_bones" Scene.empty_proxy
        nothing_active
  = ([], nothing_active, Raise AttributeError) /\
  apply GenericProxy.externals Scene.empty_proxy Scene.rig (KStr "rig")
        (mkDelta "name" DeltaDeletion) true nothing_active
  = ([], nothing_active, Raise AttributeError).
Proof.
  apply (bracket_needs_active_object GenericProxy.externals Scene.empty_proxy
           Scene.empty_proxy Scene.rig "edit_bones" "rig" (mkDelta "name" DeltaDeletion)
           true nothing_active).
  reflexivity.
Defined.

(** X9. When no object references the datablock, [_diff] and [apply] raise
    [AttributeError] (reading the mode of the [None] owner) after they have
    made [None] the active object: the delegated call is not made, no mode is
    switched, and the previous selection is lost. *)
Theorem bracket_without_owner_clears_selection (X : Externals) (self diff : Proxy)
    (d : Datablock) (key s : string) (delta : Delta) (to_blender : bool) (w : World)
    (a : nat) (oa : Object) :
  active w = Some a ->
  objects w !! a = Some oa ->
  find_armature_parent_object w d = None ->
  _diff X self d key diff w
  = ([EvSetActive None], set_active None w, Raise AttributeError) /\
  apply X self d (KStr s) delta to_blender w
  = ([EvSetActive None], set_active None w, Raise AttributeError).
Proof.
  intros Hactive Ha Hfind. rewrite diff_bracket, apply_bracket.
  split; by apply (bracket_no_owner d _ w a oa).
Qed.

Lemma bracket_without_owner_clears_selection_witness :
  _diff GenericProxy.externals Scene.empty_proxy Scene.rig "edit_bones" Scene.empty_proxy
        Scene.no_owner
  = ([EvSetActive None], set_active None Scene.no_owner, Raise AttributeError) /\
  apply GenericProxy.externals Scene.empty_proxy Scene.rig (KStr "rig")
        (mkDelta "name" DeltaDeletion) true Scene.no_owner
  = ([EvSetActive None], set_active None Scene.no_owner, Raise AttributeError).
Proof.
  apply (bracket_without_owner_clears_selection GenericProxy.externals Scene.empty_proxy
           Scene.empty_proxy Scene.rig "edit_bones" "rig" (mkDelta "name" DeltaDeletion)
           true Scene.no_owner 0 (mkObject "uuid-ob-cube" (Some Scene.cube) OBJECT));
    reflexivity.
Defined.

(** ** [apply_edit_bones]: the other ways out *)

Section CommitEdges.
Context (X : Externals).

Lemma apply_edit_bones_no_entry_run (w : World) (obj : nat) (ob : Object) (d : Datablock) :
  objects w !! obj = Some ob ->
  ob_data ob = Some d ->
  db_kind d = Armature ->
  _edit_bones_map w !! db_mixer_uuid d = None ->
  apply_edit_bones X obj w
  = ([EvCacheGet (db_mixer_uuid d); EvLog ERROR "No edit bones found"], w, Ok tt).
Proof.
  intros Hob Hdata Hkind Hentry. unfold apply_edit_bones. unfold_monad.
  rewrite Hob. simpl. rewrite Hdata. simpl. rewrite Hkind. simpl.
  by rewrite Hentry.
Qed.

Lemma apply_edit_bones_resolve_raise_run (w w1 : World) (obj : nat) (ob : Object)
    (d : Datablock) (v : Value) (n : nat) (e : Exn) :
  objects w !! obj = Some ob ->
  ob_data ob = Some d ->
  db_kind d = Armature ->
  _edit_bones_map w !! db_mixer_uuid d = Some v ->
  py_len v = inr (S n) ->
  resolve X (ob_mixer_uuid ob) obj w = (w1, Raise e) ->
  apply_edit_bones X obj w
  = ([EvCacheGet (db_mixer_uuid d); EvCall (CResolve (ob_mixer_uuid ob) obj)], w1, Raise e).
Proof.
  intros Hob Hdata Hkind Hentry Hlen Hres. unfold apply_edit_bones. unfold_monad.
  rewrite Hob. simpl. rewrite Hdata. simpl. rewrite Hkind. simpl.
  by rewrite Hentry, Hlen, Hres.
Qed.

End CommitEdges.

(** X10. When [_edit_bones_map] has no entry for the armature of the
    object, [apply_edit_bones] logs the error ["No edit bones found"] and
    returns normally: nothing is written, no mode is switched, the world is
    untouched. *)
Theorem apply_edit_bones_without_entry (X : Externals) (w : World) (obj : nat)
    (ob : Object) (d : Datablock) :
  objects w !! obj = Some ob ->
  ob_data ob = Some d ->
  db_kind d = Armature ->
  _edit_bones_map w !! db_mixer_uuid d = None ->
  let r := apply_edit_bones X obj w in
  outcome_of r = Ok tt /\
  world_of r = w /\
  trace_of r = [EvCacheGet (db_mixer_uuid d); EvLog ERROR "No edit bones found"].
Proof.
  intros Hob Hdata Hkind Hentry r. subst r.
  by rewrite (apply_edit_bones_no_entry_run X w obj ob d).
Qed.

Lemma apply_edit_bones_without_entry_witness :
  let r := apply_edit_bones GenericProxy.externals 1 Scene.owner_active in
  outcome_of r = Ok tt /\
  world_of r = Scene.owner_active /\
  trace_of r = [EvCacheGet "uuid-rig"; EvLog ERROR "No edit bones found"].
Proof.
  apply (apply_edit_bones_without_entry GenericProxy.externals Scene.owner_active 1
           (mkObject "uuid-ob-rig" (Some Scene.rig) OBJECT) Scene.rig); reflexivity.
Defined.

(** X11. The commit, when the write returns.  [write_attribute] is called
    once, with the cached value, in a world where the object is active and in
    [EDIT] mode.  Afterwards the object is active and in [OBJECT] mode, the
    entry of its armature is gone, every other entry of [_edit_bones_map] is
    what it was, and the document is what the write left.  (The collaborators
    are taken to leave the selection, the objects and the map alone.) *)
Theorem apply_edit_bones_commits (X : Externals) (w w1 w3 : World) (obj : nat)
    (ob : Object) (d : Datablock) (v : Value) (n : nat) :
  objects w !! obj = Some ob ->
  ob_data ob = Some d ->
  db_kind d = Armature ->
  _edit_bones_map w !! db_mixer_uuid d = Some v ->
  py_len v = inr (S n) ->
  resolve X (ob_mixer_uuid ob) obj w = (w1, Ok tt) ->
  same_frame w w1 ->
  write_attribute X (Some d) "edit_bones" v (write_world obj w1) = (w3, Ok tt) ->
  same_frame (write_world obj w1) w3 ->
  let r := apply_edit_bones X obj w in
  active (write_world obj w1) = Some obj /\
  ob_mode <$> objects (write_world obj w1) !! obj = Some EDIT /\
  outcome_of r = Ok tt /\
  filter is_write (trace_of r) = [EvCall (CWriteAttribute (Some d) "edit_bones" v)] /\
  active (world_of r) = Some obj /\
  ob_mode <$> objects (world_of r) !! obj = Some OBJECT /\
  _edit_bones_map (world_of r) !! db_mixer_uuid d = None /\
  (forall k, k <> db_mixer_uuid d ->
             _edit_bones_map (world_of r) !! k = _edit_bones_map w !! k) /\
  doc (world_of r) = doc w3.
Proof.
  intros Hob Hdata Hkind Hentry Hlen Hres Hf1 Hwrite Hf3 r. subst r.
  rewrite (apply_edit_bones_commit X w w1 w3 obj ob d v n (Ok tt)); try done.
  destruct Hf1 as (Hobs1 & Hact1 & Hmap1). destruct Hf3 as (Hobs3 & Hact3 & Hmap3).
  assert (exists m, objects (baseline w1) !! obj = Some (with_mode m ob)) as [m0 Hb].
  { apply baseline_lookup. by rewrite Hobs1. }
  assert (objects (write_world obj w1) !! obj = Some (with_mode EDIT ob)) as Hw.
  { unfold write_world. rewrite put_mode_lookup. simpl. rewrite Hb. simpl.
    by rewrite bool_decide_eq_true_2. }
  assert (active (write_world obj w1) = Some obj) as Ha.
  { unfold write_world. by rewrite put_mode_active. }
  unfold outcome_of, trace_of, world_of. cbn [fst snd].
  split; [done|]. split; [by rewrite Hw|]. split; [done|].
  split.
  { rewrite !filter_app. unfold baseline_trace. by case_bool_decide. }
  split; [by rewrite put_mode_active; simpl; rewrite Hact3|].
  split.
  { rewrite put_mode_lookup. simpl. rewrite Hobs3, Hw. simpl.
    by rewrite bool_decide_eq_true_2. }
  rewrite put_mode_map, put_mode_doc. simpl.
  split; [apply lookup_delete_eq|]. split; [|done].
  intros k Hk. rewrite lookup_delete_ne by done.
  by rewrite Hmap3, write_world_map, Hmap1.
Qed.

Lemma apply_edit_bones_commits_witness :
  let w := Scene.pending (VBones [Scene.b1]) Scene.other_posing in
  let r := apply_edit_bones GenericProxy.externals 1 w in
  outcome_of r = Ok tt /\
  filter is_write (trace_of r)
  = [EvCall (CWriteAttribute (Some Scene.rig) "edit_bones" (VBones [Scene.b1]))] /\
  active (world_of r) = Some 1 /\
  ob_mode <$> objects (world_of r) !! 1 = Some OBJECT /\
  _edit_bones_map (world_of r) !! "uuid-rig" = None /\
  live_edit_bones <$> doc (world_of r) !! "uuid-rig" = Some [Scene.b1].
Proof.
  intros w r.
  destruct (apply_edit_bones_commits GenericProxy.externals w w
              (GenericProxy.write_attribute (Some Scene.rig) "edit_bones"
                 (VBones [Scene.b1]) (write_world 1 w)).1
              1 (mkObject "uuid-ob-rig" (Some Scene.rig) OBJECT) Scene.rig
              (VBones [Scene.b1]) 0)
    as (_ & _ & Hout & Hwrites & Hact & Hmode & Hgone & _ & Hdoc);
    [first [reflexivity|by repeat split] ..|].
  fold r in Hout, Hwrites, Hact, Hmode, Hgone, Hdoc.
  split; [exact Hout|]. split; [exact Hwrites|]. split; [exact Hact|].
  split; [exact Hmode|]. split; [exact Hgone|]. rewrite Hdoc. reflexivity.
Defined.

(** X12. An exception of the write that is no [Exception] (a
    [KeyboardInterrupt]) is not caught by [except Exception]: it reaches the
    caller, the entry stays in [_edit_bones_map] and the object is left
    active and in [EDIT] mode. *)
Theorem write_interrupt_propagates (X : Externals) (w w1 w3 : World) (obj : nat)
    (ob : Object) (d : Datablock) (v : Value) (n : nat) (e : Exn) :
  objects w !! obj = Some ob ->
  ob_data ob = Some d ->
  db_kind d = Armature ->
  _edit_bones_map w !! db_mixer_uuid d = Some v ->
  py_len v = inr (S n) ->
  resolve X (ob_mixer_uuid ob) obj w = (w1, Ok tt) ->
  same_frame w w1 ->
  write_attribute X (Some d) "edit_bones" v (write_world obj w1) = (w3, Raise e) ->
  same_frame (write_world obj w1) w3 ->
  is_Exception e = false ->
  let r := apply_edit_bones X obj w in
  outcome_of r = Raise e /\
  filter is_del (trace_of r) = [] /\
  _edit_bones_map (world_of r) !! db_mixer_uuid d = Some v /\
  active (world_of r) = Some obj /\
  ob_mode <$> objects (world_of r) !! obj = Some EDIT.
Proof.
  intros Hob Hdata Hkind Hentry Hlen Hres (Hobs1 & Hact1 & Hmap1) Hwrite
    (Hobs3 & Hact3 & Hmap3) Hexn r. subst r.
  rewrite (apply_edit_bones_interrupted_run X w w1 w3 obj ob d v n e); try done.
  assert (exists m, objects (baseline w1) !! obj = Some (with_mode m ob)) as [m0 Hb].
  { apply baseline_lookup. by rewrite Hobs1. }
  unfold outcome_of, trace_of, world_of. cbn [fst snd].
  split; [done|]. split.
  { rewrite !filter_app. unfold baseline_trace. by case_bool_decide. }
  split; [by rewrite Hmap3, write_world_map, Hmap1|].
  split; [rewrite Hact3; unfold write_world; by rewrite put_mode_active|].
  rewrite Hobs3. unfold write_world. rewrite put_mode_lookup. simpl. rewrite Hb. simpl.
  by rewrite bool_decide_eq_true_2.
Qed.

Lemma write_interrupt_propagates_witness :
  let w := Scene.pending (VBones [Scene.b1]) Scene.owner_active in
  let r := apply_edit_bones interrupted_write 1 w in
  outcome_of r = Raise KeyboardInterrupt /\
  filter is_del (trace_of r) = [] /\
  _edit_bones_map (world_of r) !! "uuid-rig" = Some (VBones [Scene.b1]) /\
  active (world_of r) = Some 1 /\
  ob_mode <$> objects (world_of r) !! 1 = Some EDIT.
Proof.
  intros w.
  apply (write_interrupt_propagates interrupted_write w w (write_world 1 w) 1
           (mkObject "uuid-ob-rig" (Some Scene.rig) OBJECT) Scene.rig
           (VBones [Scene.b1]) 0 KeyboardInterrupt);
    first [reflexivity|by repeat split].
Defined.

(** X13. When [resolve] raises, [apply_edit_bones] passes the exception on
    before it has changed the selection or switched a mode; the entry is not
    deleted. *)
Theorem resolve_failure_propagates (X : Externals) (w w1 : World) (obj : nat)
    (ob : Object) (d : Datablock) (v : Value) (n : nat) (e : Exn) :
  objects w !! obj = Some ob ->
  ob_data ob = Some d ->
  db_kind d = Armature ->
  _edit_bones_map w !! db_mixer_uuid d = Some v ->
  py_len v = inr (S n) ->
  resolve X (ob_mixer_uuid ob) obj w = (w1, Raise e) ->
  let r := apply_edit_bones X obj w in
  outcome_of r = Raise e /\
  world_of r = w1 /\
  filter is_host_change (trace_of r) = [] /\
  filter is_write (trace_of r) = [] /\
  filter is_del (trace_of r) = [].
Proof.
  intros Hob Hdata Hkind Hentry Hlen Hres r. subst r.
  by rewrite (apply_edit_bones_resolve_raise_run X w w1 obj ob d v n e).
Qed.

Lemma resolve_failure_propagates_witness :
  let w := Scene.pending (VBones [Scene.b1]) Scene.other_posing in
  let r := apply_edit_bones failing_resolve 1 w in
  outcome_of r = Raise (OtherException "unresolved") /\
  world_of r = w /\
  filter is_host_change (trace_of r) = [] /\
  filter is_write (trace_of r) = [] /\
  filter is_del (trace_of r) = [].
Proof.
  intros w.
  apply (resolve_failure_propagates failing_resolve w w 1
           (mkObject "uuid-ob-rig" (Some Scene.rig) OBJECT) Scene.rig
           (VBones [Scene.b1]) 0 (OtherException "unresolved")); reflexivity.
Defined.

(** X14. [apply_edit_bones] does not put the selection back.  When another
    object is active and not in [OBJECT] mode, the commit first switches that
    object to [OBJECT] mode; afterwards it is still in [OBJECT] mode and the
    committed object is the active one, whether the write returned or raised
    an [Exception]. *)
Theorem commit_takes_over_selection (X : Externals) (w w1 w3 : World) (obj a : nat)
    (ob oa : Object) (d : Datablock) (v : Value) (n : nat) (o : Outcome unit) :
  objects w !! obj = Some ob ->
  ob_data ob = Some d ->
  db_kind d = Armature ->
  _edit_bones_map w !! db_mixer_uuid d = Some v ->
  py_len v = inr (S n) ->
  resolve X (ob_mixer_uuid ob) obj w = (w1, Ok tt) ->
  same_frame w w1 ->
  write_attribute X (Some d) "edit_bones" v (write_world obj w1) = (w3, o) ->
  same_frame (write_world obj w1) w3 ->
  (forall e, o = Raise e -> is_Exception e = true) ->
  active w = Some a ->
  a <> obj ->
  objects w !! a = Some oa ->
  ob_mode oa <> OBJECT ->
  let r := apply_edit_bones X obj w in
  outcome_of r = Ok tt /\
  filter is_host_change (trace_of r)
  = [EvModeSet (Some a) OBJECT; EvSetActive (Some obj); EvModeSet (Some obj) EDIT;
     EvModeSet (Some obj) OBJECT] /\
  active (world_of r) = Some obj /\
  ob_mode <$> objects (world_of r) !! a = Some OBJECT.
Proof.
  intros Hob Hdata Hkind Hentry Hlen Hres Hf1 Hwrite Hf3 Hexn Hactive Hne Ha Hmode r.
  subst r.
  rewrite (apply_edit_bones_commit X w w1 w3 obj ob d v n o); try done.
  destruct Hf1 as (Hobs1 & Hact1 & Hmap1). destruct Hf3 as (Hobs3 & Hact3 & Hmap3).
  assert (context_mode w1 <> CONTEXT_OBJECT) as Hctx.
  { unfold context_mode, context_mode_of. rewrite Hact1, Hactive, Hobs1, Ha.
    destruct (ob_mode oa); try done. by repeat case_match. }
  unfold outcome_of, trace_of, world_of. cbn [fst snd].
  split; [done|]. split.
  { rewrite !filter_app. unfold baseline_trace.
    rewrite bool_decide_eq_true_2 by done. by rewrite Hact1, Hactive. }
  split.
  { rewrite put_mode_active. simpl. rewrite Hact3. unfold write_world.
    by rewrite put_mode_active. }
  rewrite put_mode_lookup. simpl. rewrite Hobs3. unfold write_world.
  rewrite put_mode_lookup. simpl. unfold baseline.
  rewrite (bool_decide_eq_true_2 (context_mode w1 <> CONTEXT_OBJECT)) by done.
  rewrite Hact1, Hactive, put_mode_lookup, Hobs1, Ha. simpl.
  rewrite (bool_decide_eq_true_2 (a = a)) by done.
  by rewrite !(bool_decide_eq_false_2 (obj = a)) by done.
Qed.

Lemma commit_takes_over_selection_witness :
  let w := Scene.pending (VBones [Scene.b1]) Scene.other_posing in
  let r := apply_edit_bones failing_write 1 w in
  outcome_of r = Ok tt /\
  filter is_host_change (trace_of r)
  = [EvModeSet (Some 0) OBJECT; EvSetActive (Some 1); EvModeSet (Some 1) EDIT;
     EvModeSet (Some 1) OBJECT] /\
  active (world_of r) = Some 1 /\
  ob_mode <$> objects (world_of r) !! 0 = Some OBJECT.
Proof.
  intros w.
  apply (commit_takes_over_selection failing_write w w (write_world 1 w) 1 0
           (mkObject "uuid-ob-rig" (Some Scene.rig) OBJECT)
           (mkObject "uuid-ob-other" (Some Scene.other_rig) POSE) Scene.rig
           (VBones [Scene.b1]) 0 (Raise (OtherException "boom")));
    first [reflexivity | by repeat split | done | by intros e [= <-]].
Defined.

(** X15. A commit is one-shot: once [apply_edit_bones] has gone through the
    write, a second call for the same object finds no entry, logs
    ["No edit bones found"] and changes nothing. *)
Theorem second_commit_finds_nothing (X : Externals) (w w1 w3 : World) (obj : nat)
    (ob : Object) (d : Datablock) (v : Value) (n : nat) (o : Outcome unit) :
  objects w !! obj = Some ob ->
  ob_data ob = Some d ->
  db_kind d = Armature ->
  _edit_bones_map w !! db_mixer_uuid d = Some v ->
  py_len v = inr (S n) ->
  resolve X (ob_mixer_uuid ob) obj w = (w1, Ok tt) ->
  same_frame w w1 ->
  write_attribute X (Some d) "edit_bones" v (write_world obj w1) = (w3, o) ->
  same_frame (write_world obj w1) w3 ->
  (forall e, o = Raise e -> is_Exception e = true) ->
  let w' := world_of (apply_edit_bones X obj w) in
  apply_edit_bones X obj w'
  = ([EvCacheGet (db_mixer_uuid d); EvLog ERROR "No edit bones found"], w', Ok tt).
Proof.
  intros Hob Hdata Hkind Hentry Hlen Hres Hf1 Hwrite Hf3 Hexn w'. subst w'.
  rewrite (apply_edit_bones_commit X w w1 w3 obj ob d v n o); try done.
  destruct Hf1 as (Hobs1 & Hact1 & Hmap1). destruct Hf3 as (Hobs3 & Hact3 & Hmap3).
  assert (exists m, objects (baseline w1) !! obj = Some (with_mode m ob)) as [m0 Hb].
  { apply baseline_lookup. by rewrite Hobs1. }
  unfold world_of. cbn [fst snd].
  apply (apply_edit_bones_no_entry_run X _ obj (with_mode OBJECT ob) d); try done.
  - rewrite put_mode_lookup. simpl. rewrite Hobs3. unfold write_world.
    rewrite put_mode_lookup. simpl. rewrite Hb. simpl.
    by rewrite !bool_decide_eq_true_2.
  - rewrite put_mode_map. simpl. apply lookup_delete_eq.
Qed.

Lemma second_commit_finds_nothing_witness :
  let w := Scene.pending (VBones [Scene.b1]) Scene.owner_active in
  let w' := world_of (apply_edit_bones GenericProxy.externals 1 w) in
  apply_edit_bones GenericProxy.externals 1 w'
  = ([EvCacheGet "uuid-rig"; EvLog ERROR "No edit bones found"], w', Ok tt).
Proof.
  intros w.
  apply (second_commit_finds_nothing GenericProxy.externals w w
           (GenericProxy.write_attribute (Some Scene.rig) "edit_bones"
              (VBones [Scene.b1]) (write_world 1 w)).1
           1 (mkObject "uuid-ob-rig" (Some Scene.rig) OBJECT) Scene.rig
           (VBones [Scene.b1]) 0 (Ok tt));
    first [reflexivity | by repeat split | done].
Defined.

(** ** [_save]: what it never does, and how it fails *)

Lemma filter_cons_false (P : Event -> bool) (x : Event) (l : list Event) :
  P x = false -> filter P (x :: l) = filter P l.
Proof. intros Hx. apply filter_cons_False. cbv beta. rewrite Hx. by intros []. Qed.

Ltac filter_out :=
  rewrite ?filter_app; repeat (rewrite filter_cons_false by auto); rewrite ?filter_nil.

Section SaveEdges.
Context (X : Externals).

Lemma save_items_filter (P : Event -> bool) (d : Datablock) (items : list (string * Value)) :
  (forall c, P (EvCall c) = false) ->
  (forall k v, P (EvCacheSet k v) = false) \/ "edit_bones" ∉ items.*1 ->
  forall w, filter P (trace_of (save_items X d items w)) = [].
Proof.
  intros Hcall. induction items as [|[k v] rest IH]; intros Hset w; [reflexivity|].
  assert ((forall k v, P (EvCacheSet k v) = false) \/ "edit_bones" ∉ rest.*1) as Hrest.
  { destruct Hset as [Hset|Hnotin]; [by left|right].
    simpl in Hnotin. by apply not_elem_of_cons in Hnotin as [_ ?]. }
  simpl. unfold bind at 1. case_bool_decide as Hk.
  - unfold call. destruct (write_attribute X (Some d) k v w) as [w1 [[]|e]].
    + specialize (IH Hrest w1). destruct (save_items X d rest w1) as [[t2 w2] o2].
      unfold trace_of in *. cbn [fst snd] in *. filter_out. by rewrite IH.
    + unfold trace_of. cbn [fst snd]. by filter_out.
  - assert (P (EvCacheSet (db_mixer_uuid d) v) = false) as Hstore.
    { destruct Hset as [Hset|Hnotin]; [done|].
      exfalso. apply Hnotin. subst k. simpl. left. }
    unfold_monad. simpl.
    match goal with |- context [save_items X d rest ?w1] => specialize (IH Hrest w1);
      destruct (save_items X d rest w1) as [[t2 w2] o2] end.
    unfold trace_of in *. cbn [fst snd] in *. by filter_out.
Qed.

Lemma save_filter (P : Event -> bool) (self : Proxy) (datablock : Datablock) (w : World) :
  (forall c, P (EvCall c) = false) ->
  (forall l m, P (EvLog l m) = false) ->
  (forall k v, P (EvCacheSet k v) = false) \/ "edit_bones" ∉ (_data self).*1 ->
  filter P (trace_of (_save X self datablock w)) = [].
Proof.
  intros Hcall Hlog Hset. unfold _save. unfold bind at 1. unfold call at 1.
  destruct (_pre_save X self datablock w) as [w0 [[d|]|e]].
  2:{ unfold_monad. unfold trace_of. cbn [fst snd app]. by filter_out. }
  2:{ unfold trace_of. cbn [fst snd]. by filter_out. }
  unfold bind at 1 2, with_cm, call. unfold bind at 1.
  destruct (enter_datablock X self d w0) as [w2 [[]|e]].
  2:{ unfold trace_of. cbn [fst snd]. by filter_out. }
  pose proof (save_items_filter P d (_data self) Hcall Hset w2) as Hitems.
  destruct (save_items X d (_data self) w2) as [[t3 w3] o3].
  unfold trace_of in *. cbn [fst snd] in Hitems.
  destruct (exit_datablock X self d w3) as [w4 [[]|e]].
  - destruct o3 as [[]|e]; cbn [fst snd].
    + destruct (custom_properties_save X self d w4) as [w5 [[]|e]]; unfold ret;
        cbn [fst snd]; filter_out; by rewrite Hitems.
    + filter_out. by rewrite Hitems.
  - cbn [fst snd]. filter_out. by rewrite Hitems.
Qed.

Lemma save_items_app (d : Datablock) (pre rest : list (string * Value)) :
  forall w w1 w2 t1 t2 o,
    save_items X d pre w = (t1, w1, Ok tt) ->
    save_items X d rest w1 = (t2, w2, o) ->
    save_items X d (pre ++ rest) w = (t1 ++ t2, w2, o).
Proof.
  induction pre as [|[k v] pre IH]; intros w w1 w2 t1 t2 o Hpre Hrest.
  - unfold save_items, ret in Hpre. by injection Hpre as <- <-.
  - simpl in *. unfold bind at 1 in Hpre. unfold bind at 1.
    match type of Hpre with
    | context [let (_, _) := ?step w in _] =>
        destruct (step w) as [[t0 w0] [[]|e]]; [|discriminate]
    end.
    destruct (save_items X d pre w0) as [[t3 w3] o3] eqn:Hrun.
    injection Hpre as Ht Hw Ho. subst.
    by rewrite (IH _ _ _ _ _ _ Hrun Hrest), app_assoc.
Qed.

Lemma save_success_inv (self : Proxy) (datablock d1 : Datablock) (w w' : World)
    (t : list Event) :
  _save X self datablock w = (t, w', Ok (Saved d1)) ->
  exists w0 w2 w3 w4 t3,
    _pre_save X self datablock w = (w0, Ok (Some d1)) /\
    enter_datablock X self d1 w0 = (w2, Ok tt) /\
    save_items X d1 (_data self) w2 = (t3, w3, Ok tt) /\
    exit_datablock X self d1 w3 = (w4, Ok tt) /\
    custom_properties_save X self d1 w4 = (w', Ok tt).
Proof.
  intros Hrun. unfold _save in Hrun. unfold bind at 1 in Hrun. unfold call at 1 in Hrun.
  destruct (_pre_save X self datablock w) as [w0 [[d|]|e]] eqn:Hpre; [| |discriminate].
  2:{ unfold_monad. simpl in Hrun. discriminate. }
  unfold bind at 1 2, with_cm, call in Hrun. unfold bind at 1 in Hrun.
  destruct (enter_datablock X self d w0) as [w2 [[]|e]] eqn:Henter; [|discriminate].
  destruct (save_items X d (_data self) w2) as [[t3 w3] o3] eqn:Hitems.
  destruct (exit_datablock X self d w3) as [w4 [[]|e]] eqn:Hexit; [|discriminate].
  destruct o3 as [[]|e]; [|discriminate].
  destruct (custom_properties_save X self d w4) as [w5 [[]|e]] eqn:Hcustom;
    [|discriminate].
  unfold ret in Hrun. simpl in Hrun. injection Hrun as <- <- ->.
  by exists w0, w2, w3, w4, t3.
Qed.

End SaveEdges.

(** X16. Whatever the collaborators do and however it ends, [_save] itself
    never switches a mode, never changes the active object, and never reads
    or deletes an entry of [_edit_bones_map]: its trace holds collaborator
    calls, stores into the map and the warning only. *)
Theorem save_defers_the_gated_write (X : Externals) (self : Proxy) (datablock : Datablock)
    (w : World) :
  let t := trace_of (_save X self datablock w) in
  filter is_host_change t = [] /\
  filter is_del t = [] /\
  (forall k, EvCacheGet k ∉ t).
Proof.
  intros t. subst t. split; [|split].
  - apply save_filter; auto.
  - apply save_filter; auto.
  - intros k Hin.
    assert (EvCacheGet k ∈ filter (fun e => bool_decide (e = EvCacheGet k))
                                  (trace_of (_save X self datablock w))) as Hin'.
    { apply list_elem_of_filter. split; [by apply bool_decide_pack|done]. }
    rewrite save_filter in Hin'; [by apply elem_of_nil in Hin'|..].
    + intros c. by apply bool_decide_eq_false_2.
    + intros l m. by apply bool_decide_eq_false_2.
    + left. intros k0 v0. by apply bool_decide_eq_false_2.
Qed.

(** X17. When the proxy holds no ["edit_bones"] item, [_save] does not
    touch [_edit_bones_map] at all: no store either. *)
Theorem save_without_edit_bones (X : Externals) (self : Proxy) (datablock : Datablock)
    (w : World) :
  "edit_bones" ∉ (_data self).*1 ->
  filter is_cache_access (trace_of (_save X self datablock w)) = [].
Proof. intros Hnotin. apply save_filter; auto. Qed.

Lemma save_without_edit_bones_witness :
  filter is_cache_access
    (trace_of (_save GenericProxy.externals plain_proxy Scene.rig Scene.owner_active)) = [].
Proof.
  apply (save_without_edit_bones GenericProxy.externals plain_proxy Scene.rig
           Scene.owner_active).
  apply (bool_decide_unpack _). vm_compute. reflexivity.
Defined.

(** X18. When [write_attribute] raises on an item, the loop of [_save]
    stops there: the items after it are neither written nor stored, the
    datablock is left through the context manager, the custom properties are
    not saved and the exception reaches the caller. *)
Theorem save_stops_at_failing_write (X : Externals) (self : Proxy)
    (datablock d1 : Datablock) (w w0 w2 w3 w4 w5 : World) (tpre : list Event)
    (pre post : list (string * Value)) (k : string) (v : Value) (e : Exn) :
  _pre_save X self datablock w = (w0, Ok (Some d1)) ->
  enter_datablock X self d1 w0 = (w2, Ok tt) ->
  _data self = pre ++ (k, v) :: post ->
  k <> "edit_bones" ->
  save_items X d1 pre w2 = (tpre, w3, Ok tt) ->
  write_attribute X (Some d1) k v w3 = (w4, Raise e) ->
  exit_datablock X self d1 w4 = (w5, Ok tt) ->
  _save X self datablock w
  = ([EvCall (CPreSave datablock); EvCall (CEnterDatablock d1)]
       ++ map (save_event d1) pre
       ++ [EvCall (CWriteAttribute (Some d1) k v); EvCall (CExitDatablock d1)],
     w5, Raise e).
Proof.
  intros Hpre Henter Hdata Hk Hitems Hwrite Hexit.
  pose proof (save_items_trace X d1 pre w2 tpre w3 Hitems) as ->.
  assert (save_items X d1 ((k, v) :: post) w3
          = ([EvCall (CWriteAttribute (Some d1) k v)], w4, Raise e)) as Hstop.
  { simpl. unfold bind at 1. rewrite bool_decide_eq_true_2 by done.
    unfold call. by rewrite Hwrite. }
  pose proof (save_items_app X d1 pre ((k, v) :: post) w2 w3 w4 _ _ _ Hitems Hstop) as Hall.
  unfold _save. unfold bind at 1. unfold call at 1. rewrite Hpre.
  unfold bind at 1 2, with_cm, call. unfold bind at 1.
  rewrite Henter, Hdata, Hall, Hexit. simpl. by rewrite <- !app_assoc.
Qed.

Lemma save_stops_at_failing_write_witness :
  _save refusing_layers layers_first_proxy Scene.rig Scene.owner_active
  = ([EvCall (CPreSave Scene.rig); EvCall (CEnterDatablock Scene.rig)]
       ++ map (save_event Scene.rig) [("name", VStr "rig")]
       ++ [EvCall (CWriteAttribute (Some Scene.rig) "layers" (VInt 3));
           EvCall (CExitDatablock Scene.rig)],
     (GenericProxy.write_attribute (Some Scene.rig) "name" (VStr "rig")
        Scene.owner_active).1,
     Raise (OtherException "read-only")).
Proof.
  apply (save_stops_at_failing_write refusing_layers layers_first_proxy Scene.rig Scene.rig
           Scene.owner_active Scene.owner_active Scene.owner_active
           (GenericProxy.write_attribute (Some Scene.rig) "name" (VStr "rig")
              Scene.owner_active).1
           (GenericProxy.write_attribute (Some Scene.rig) "name" (VStr "rig")
              Scene.owner_active).1
           (GenericProxy.write_attribute (Some Scene.rig) "name" (VStr "rig")
              Scene.owner_active).1
           [EvCall (CWriteAttribute (Some Scene.rig) "name" (VStr "rig"))]
           [("name", VStr "rig")] [("edit_bones", VBones [Scene.b1])] "layers" (VInt 3)
           (OtherException "read-only"));
    first [reflexivity | done].
Defined.

(** ** [load], [_diff] and [apply] do not use [_edit_bones_map] *)

Lemma mode_set_on_trace (target : option nat) (m : Mode) (w : World) :
  trace_of (mode_set_on target m w) = [EvModeSet target m].
Proof.
  unfold_monad. unfold trace_of. simpl.
  destruct target as [i|]; [|done]. by destruct (objects w !! i).
Qed.

Lemma mode_set_trace (m : Mode) (w : World) :
  trace_of (mode_set m w) = [EvModeSet (active w) m].
Proof. unfold mode_set, bind, get_world. simpl.
  pose proof (mode_set_on_trace (active w) m w) as Ht.
  destruct (mode_set_on (active w) m w) as [[t w'] o]. by rewrite <- Ht.
Qed.

Lemma bind_filter {A B : Type} (P : Event -> bool) (m : M A) (f : A -> M B) (w : World) :
  filter P (trace_of (m w)) = [] ->
  (forall a w', filter P (trace_of (f a w')) = []) ->
  filter P (trace_of (bind m f w)) = [].
Proof.
  intros Hm Hf. unfold bind. destruct (m w) as [[t1 w1] [a|e]]; [|done].
  specialize (Hf a w1). destruct (f a w1) as [[t2 w2] o].
  unfold trace_of in *. cbn [fst snd] in *. by rewrite filter_app, Hm, Hf.
Qed.

Lemma mode_set_no_cache (m : Mode) (w : World) :
  filter is_cache_access (trace_of (mode_set m w)) = [].
Proof. by rewrite mode_set_trace. Qed.

Lemma mode_set_on_no_cache (target : option nat) (m : Mode) (w : World) :
  filter is_cache_access (trace_of (mode_set_on target m w)) = [].
Proof. by rewrite mode_set_on_trace. Qed.

Lemma mode_set_named_no_cache (target : option nat) (name : ContextMode) (w : World) :
  filter is_cache_access (trace_of (mode_set_named target name w)) = [].
Proof.
  unfold mode_set_named. destruct (operator_mode name); [|done].
  apply mode_set_on_no_cache.
Qed.

Lemma mode_of_no_cache (ob : option nat) (w : World) :
  filter is_cache_access (trace_of (mode_of ob w)) = [].
Proof.
  unfold_monad. unfold trace_of. simpl.
  destruct ob as [i|]; [|done]. by destruct (objects w !! i).
Qed.

Lemma call_no_cache {A : Type} (c : Call) (f : External A) (w : World) :
  filter is_cache_access (trace_of (call c f w)) = [].
Proof. unfold call. by destruct (f w). Qed.

Lemma edit_bracket_no_cache {A : Type} (d : Datablock) (c : Call) (f : External A)
    (w : World) :
  filter is_cache_access (trace_of (edit_bracket d (call c f) w)) = [].
Proof.
  unfold edit_bracket.
  apply bind_filter; [done|]. intros w0 w1. cbv zeta.
  apply bind_filter; [apply mode_of_no_cache|]. intros m1 w2.
  apply bind_filter; [done|]. intros [] w3.
  apply bind_filter; [apply mode_of_no_cache|]. intros m2 w4.
  apply bind_filter; [apply mode_set_no_cache|]. intros [] w5.
  apply bind_filter; [apply call_no_cache|]. intros res w6.
  apply bind_filter; [apply mode_set_no_cache|]. intros [] w7.
  apply bind_filter; [done|]. intros [] w8.
  apply bind_filter; [apply mode_set_no_cache|]. intros [] w9.
  done.
Qed.

(** X19. Whatever the collaborators do and however they end, [load],
    [_diff] and [apply] themselves never read, store or delete an entry of
    [_edit_bones_map]: only [_save] stores and only [apply_edit_bones] reads
    and deletes. *)
Theorem bracketed_operations_leave_map_alone (X : Externals) (self diff : Proxy)
    (d : Datablock) (key : string) (k : Key) (delta : Delta) (to_blender : bool)
    (w : World) :
  filter is_cache_access (trace_of (load X self d w)) = [] /\
  filter is_cache_access (trace_of (_diff X self d key diff w)) = [] /\
  filter is_cache_access (trace_of (apply X self d k delta to_blender w)) = [].
Proof.
  split; [|split].
  - unfold load. apply bind_filter; [done|]. intros w0 w1.
    destruct (find_armature_parent_object w0 d) as [o|]; [|done].
    destruct (override_context w0) as [ctx|]; [|done]. cbv zeta.
    apply bind_filter; [apply mode_set_on_no_cache|]. intros [] w2.
    apply bind_filter; [apply call_no_cache|]. intros p w3.
    apply bind_filter; [apply mode_set_named_no_cache|]. intros [] w4.
    done.
  - rewrite diff_bracket. apply edit_bracket_no_cache.
  - destruct k as [i|s]; [done|]. rewrite apply_bracket. apply edit_bracket_no_cache.
Qed.

(** ** [_save], then [apply_edit_bones] *)

Section SaveThenCommit.
Context (X : Externals).

Lemma save_items_other_keys (d : Datablock) (items : list (string * Value)) (k : string) :
  (forall k' v, keeps_edit_bones_map (write_attribute X (Some d) k' v)) ->
  k <> db_mixer_uuid d ->
  forall w t w' o, save_items X d items w = (t, w', o) ->
                   _edit_bones_map w' !! k = _edit_bones_map w !! k.
Proof.
  intros Hkeep Hk. induction items as [|[k' v] rest IH]; intros w t w' o Hrun;
    simpl in Hrun.
  - unfold ret in Hrun. by injection Hrun as <- <- <-.
  - unfold bind at 1 in Hrun. case_bool_decide as Hkey.
    + unfold call in Hrun. specialize (Hkeep k' v w).
      destruct (write_attribute X (Some d) k' v w) as [w1 [[]|e]]; simpl in Hkeep.
      * destruct (save_items X d rest w1) as [[t2 w2] o2] eqn:Hrest.
        injection Hrun as <- <- <-. rewrite <- Hkeep. eauto.
      * injection Hrun as <- <- <-. by rewrite Hkeep.
    + unfold_monad. simpl in Hrun.
      destruct (save_items X d rest _) as [[t2 w2] o2] eqn:Hrest.
      injection Hrun as <- <- <-. rewrite (IH _ _ _ _ Hrest). simpl.
      by apply lookup_insert_ne.
Qed.

Lemma save_stashes_value (self : Proxy) (datablock d1 : Datablock) (w w' : World)
    (t : list Event) (v : Value) :
  _save X self datablock w = (t, w', Ok (Saved d1)) ->
  (forall k v, keeps_edit_bones_map (write_attribute X (Some d1) k v)) ->
  keeps_edit_bones_map (exit_datablock X self d1) ->
  keeps_edit_bones_map (custom_properties_save X self d1) ->
  NoDup (_data self).*1 ->
  ("edit_bones", v) ∈ _data self ->
  _edit_bones_map w' !! db_mixer_uuid d1 = Some v.
Proof.
  intros Hrun Hkw Hke Hkc Hnodup Hin.
  destruct (save_success_inv X self datablock d1 w w' t Hrun)
    as (w0 & w2 & w3 & w4 & t3 & _ & _ & Hitems & Hexit & Hcustom).
  specialize (Hke w3). specialize (Hkc w4). rewrite Hexit in Hke. rewrite Hcustom in Hkc.
  simpl in Hke, Hkc. rewrite Hkc, Hke.
  by apply (save_items_stashes X d1 (_data self) v Hkw Hnodup Hin w2 t3 w3).
Qed.

End SaveThenCommit.

(** X20. [_save] followed by [apply_edit_bones].  The value that a
    successful [_save] held back is the value the commit hands to
    [write_attribute] for ["edit_bones"], once; after the commit the entry is
    gone and the document is what that write left.  (The collaborators are
    taken to leave the selection, the objects and the map alone.) *)
Theorem save_then_commit (X : Externals) (self : Proxy) (datablock d1 : Datablock)
    (w w' w1 w3 : World) (t : list Event) (obj : nat) (ob : Object) (v : Value) (n : nat)
    (o : Outcome unit) :
  _save X self datablock w = (t, w', Ok (Saved d1)) ->
  (forall k v, keeps_edit_bones_map (write_attribute X (Some d1) k v)) ->
  keeps_edit_bones_map (exit_datablock X self d1) ->
  keeps_edit_bones_map (custom_properties_save X self d1) ->
  NoDup (_data self).*1 ->
  ("edit_bones", v) ∈ _data self ->
  py_len v = inr (S n) ->
  objects w' !! obj = Some ob ->
  ob_data ob = Some d1 ->
  db_kind d1 = Armature ->
  resolve X (ob_mixer_uuid ob) obj w' = (w1, Ok tt) ->
  same_frame w' w1 ->
  write_attribute X (Some d1) "edit_bones" v (write_world obj w1) = (w3, o) ->
  same_frame (write_world obj w1) w3 ->
  (forall e, o = Raise e -> is_Exception e = true) ->
  let r := apply_edit_bones X obj w' in
  outcome_of r = Ok tt /\
  filter is_write (trace_of r) = [EvCall (CWriteAttribute (Some d1) "edit_bones" v)] /\
  _edit_bones_map (world_of r) !! db_mixer_uuid d1 = None /\
  doc (world_of r) = doc w3.
Proof.
  intros Hsave Hkw Hke Hkc Hnodup Hin Hlen Hob Hdata Hkind Hres Hf1 Hwrite Hf3 Hexn r.
  subst r.
  pose proof (save_stashes_value X self datablock d1 w w' t v Hsave Hkw Hke Hkc Hnodup Hin)
    as Hentry.
  rewrite (apply_edit_bones_commit X w' w1 w3 obj ob d1 v n o); try done.
  unfold outcome_of, trace_of, world_of. cbn [fst snd].
  split; [done|]. split.
  { rewrite !filter_app. unfold baseline_trace. by case_bool_decide. }
  rewrite put_mode_map, put_mode_doc. simpl. split; [apply lookup_delete_eq|done].
Qed.

Lemma save_then_commit_witness :
  let w' := world_of (_save GenericProxy.externals layers_first_proxy Scene.rig
                            Scene.owner_active) in
  let r := apply_edit_bones GenericProxy.externals 1 w' in
  live_edit_bones <$> doc w' !! "uuid-rig" = Some [Scene.b1; Scene.b2] /\
  outcome_of r = Ok tt /\
  filter is_write (trace_of r)
  = [EvCall (CWriteAttribute (Some Scene.rig) "edit_bones" (VBones [Scene.b1]))] /\
  _edit_bones_map (world_of r) !! "uuid-rig" = None /\
  live_edit_bones <$> doc (world_of r) !! "uuid-rig" = Some [Scene.b1].
Proof.
  intros w' r. split; [vm_compute; reflexivity|].
  destruct (save_then_commit GenericProxy.externals layers_first_proxy Scene.rig Scene.rig
              Scene.owner_active w' w'
              (GenericProxy.write_attribute (Some Scene.rig) "edit_bones"
                 (VBones [Scene.b1]) (write_world 1 w')).1
              (trace_of (_save GenericProxy.externals layers_first_proxy Scene.rig
                               Scene.owner_active))
              1 (mkObject "uuid-ob-rig" (Some Scene.rig) OBJECT)
              (VBones [Scene.b1]) 0 (Ok tt))
    as (Hout & Hwrites & Hgone & Hdoc).
  - vm_compute. reflexivity.
  - intros k v. apply generic_write_keeps_map.
  - apply skip2_keeps_map.
  - apply skip2_keeps_map.
  - apply (bool_decide_unpack _). vm_compute. reflexivity.
  - apply (bool_decide_unpack _). vm_compute. reflexivity.
  - reflexivity.
  - vm_compute. reflexivity.
  - reflexivity.
  - reflexivity.
  - vm_compute. reflexivity.
  - by repeat split.
  - vm_compute. reflexivity.
  - by repeat split.
  - done.
  - fold r in Hout, Hwrites, Hgone, Hdoc.
    split; [exact Hout|]. split; [exact Hwrites|]. split; [exact Hgone|].
    rewrite Hdoc. vm_compute. reflexivity.
Defined.

(** X21. [_save] changes [_edit_bones_map] under the [mixer_uuid] of the
    saved datablock only: when the collaborators leave the map alone, every
    entry under another key is after [_save], however it ends, what it was
    before. *)
Theorem save_keeps_other_entries (X : Externals) (self : Proxy) (datablock d1 : Datablock)
    (w w0 : World) (k : string) :
  _pre_save X self datablock w = (w0, Ok (Some d1)) ->
  _edit_bones_map w0 = _edit_bones_map w ->
  keeps_edit_bones_map (enter_datablock X self d1) ->
  (forall k v, keeps_edit_bones_map (write_attribute X (Some d1) k v)) ->
  keeps_edit_bones_map (exit_datablock X self d1) ->
  keeps_edit_bones_map (custom_properties_save X self d1) ->
  k <> db_mixer_uuid d1 ->
  _edit_bones_map (world_of (_save X self datablock w)) !! k = _edit_bones_map w !! k.
Proof.
  intros Hpre Hmap0 Hkn Hkw Hke Hkc Hk.
  unfold _save. unfold bind at 1. unfold call at 1. rewrite Hpre.
  unfold bind at 1 2, with_cm, call. unfold bind at 1.
  specialize (Hkn w0).
  destruct (enter_datablock X self d1 w0) as [w2 [[]|e]]; simpl in Hkn.
  2:{ unfold world_of. cbn [fst snd]. by rewrite Hkn, Hmap0. }
  destruct (save_items X d1 (_data self) w2) as [[t3 w3] o3] eqn:Hitems.
  pose proof (save_items_other_keys X d1 (_data self) k Hkw Hk w2 t3 w3 o3 Hitems) as Hother.
  specialize (Hke w3).
  destruct (exit_datablock X self d1 w3) as [w4 [[]|e]]; simpl in Hke.
  - destruct o3 as [[]|e].
    + specialize (Hkc w4).
      destruct (custom_properties_save X self d1 w4) as [w5 [[]|e]]; simpl in Hkc;
        unfold world_of, ret; cbn [fst snd]; by rewrite Hkc, Hke, Hother, Hkn, Hmap0.
    + unfold world_of. cbn [fst snd]. by rewrite Hke, Hother, Hkn, Hmap0.
  - unfold world_of. cbn [fst snd]. by rewrite Hke, Hother, Hkn, Hmap0.
Qed.

Lemma save_keeps_other_entries_witness :
  let w := Scene.mesh_owner in
  _edit_bones_map
    (world_of (_save GenericProxy.externals
                     (mkProxy [("edit_bones", VBones [Scene.b2])]) Scene.other_rig w))
    !! "uuid-rig"
  = _edit_bones_map w !! "uuid-rig".
Proof.
  intros w.
  apply (save_keeps_other_entries GenericProxy.externals
           (mkProxy [("edit_bones", VBones [Scene.b2])]) Scene.other_rig Scene.other_rig
           w w "uuid-rig").
  - reflexivity.
  - reflexivity.
  - apply skip2_keeps_map.
  - intros k v. apply generic_write_keeps_map.
  - apply skip2_keeps_map.
  - apply skip2_keeps_map.
  - done.
Defined.
